(** * Keras guides: the stateless JAX training step and the Sequential model

    The repository holds two guides: a notebook that overrides
    [train_step] / [test_step] of [keras.Model] for the JAX backend
    (guides/ipynb/keras_core/custom_train_step_in_jax.ipynb) and the
    Sequential-model guide.  The Python of their code cells is embedded
    here as Rocq functions; the operations of keras_core and jax that the
    cells call are taken as an interface ([Backend], [Model], [Metric],
    [Optimizer]), so every statement about a cell holds for any
    implementation of the framework.  What depends only on the names and
    on the kinds of the statements of the cells is read from an outline
    of all code cells ([Outline]). *)

From stdpp Require Import base option list strings gmap pretty.

(** ** Python values shared by the two guides *)

(** The exceptions that the embedded cells can end with. *)
Inductive exn : Type :=
| UnboundLocalError (name : string)
| NameError (name : string)
| TypeError (msg : string)
| ValueError (msg : string)
| IndexError (msg : string).

(** The outcome of running a piece of Python: a value, or an exception
    that nothing caught. *)
Inductive result (A : Type) : Type :=
| Ok (a : A)
| Raise (e : exn).
Arguments Ok {A} a.
Arguments Raise {A} e.

(** [l[start:stop]] for non-negative bounds: Python clamps both bounds
    to the length of the list, and gives [[]] when [stop <= start]. *)
Definition slice {A : Type} (l : list A) (start stop : nat) : list A :=
  take (stop - start) (drop start l).

(** A method body threads the object it is called on: [M S A] is a
    computation over an object of class [S] that returns an [A] and the
    object as the body leaves it. *)
Definition M (S A : Type) : Type := S → A * S.

Global Instance M_ret {S : Type} : MRet (M S) := λ A a self, (a, self).

Global Instance M_bind {S : Type} : MBind (M S) :=
  λ A B k m self, let '(a, self') := m self in k a self'.

(** [self.attr] *)
Definition getattr {S A : Type} (attr : S → A) : M S A :=
  λ self, (attr self, self).

(** [self.attr = v], as an update of the object *)
Definition setattr {S : Type} (upd : S → S) : M S unit :=
  λ self, (tt, upd self).

(** The bound method [self.m]: the function that runs [m] on [self] and
    gives what it returns.  It is what [jax.value_and_grad] receives. *)
Definition bound_method {S A : Type} (self : S) (m : M S A) : A := (m self).1.

(** ** The framework interface the notebook calls *)

(** [Array] are the framework's tensors (inputs, targets, predictions,
    the loss, every variable value); [Logs] is what a metric reports.
    [value_and_grad f] is [jax.value_and_grad(f, has_aux=True)]: from a
    function returning [(loss, aux)] it makes one returning
    [((loss, aux), grads)]. *)
Class Backend : Type := {
  Array : Type;
  Logs : Type;
  value_and_grad : ∀ {Aux : Type},
    (list Array → list Array → Array → Array → bool → Array * Aux) →
    list Array → list Array → Array → Array → bool →
    (Array * Aux) * list Array;
}.

Section Framework.
Context `{Backend}.

(** A [keras.metrics.Metric] object: its [name], its current [variables]
    (the cells only take their number), and its two stateless methods.
    [stateless_update_state] is variadic in Python: the cells pass
    [(vars, loss)] or [(vars, y, y_pred)], here [vars] and the list of
    the other arguments. *)
Record Metric : Type := {
  metric_name : string;
  metric_variables : list Array;
  stateless_update_state : list Array → list Array → list Array;
  stateless_result : list Array → Logs;
}.

(** A [keras.optimizers.Optimizer]:
    [stateless_apply(optimizer_variables, grads, trainable_variables)]
    returns [(trainable_variables, optimizer_variables)]. *)
Record Optimizer : Type := {
  stateless_apply :
    list Array → list Array → list Array → list Array * list Array;
}.

(** What a [keras.Model] instance offers to the cells:
    [stateless_call(trainable_variables, non_trainable_variables, x,
    training=...)] returning [(y_pred, non_trainable_variables)],
    [compute_loss(x, y, y_pred)], the compiled [optimizer] and the
    [metrics] list. *)
Record Model : Type := {
  stateless_call :
    list Array → list Array → Array → bool → Array * list Array;
  compute_loss : Array → Array → Array → Array;
  optimizer : Optimizer;
  metrics : list Metric;
}.

(** The state tuples of [train_step] and of [test_step]. *)
Definition TrainState : Type :=
  list Array * list Array * list Array * list Array.
Definition TestState : Type :=
  list Array * list Array * list Array.

(** One iteration of the loop [for metric in self.metrics:] shared by
    the first [train_step] and by [test_step].  The loop variables are
    [new_metrics_vars] and [logs]; [logs] is unbound ([None]) until the
    first iteration assigns it. *)
Definition metric_step (metrics_variables : list Array) (loss y y_pred : Array)
    (acc : list Array * option Logs) (metric : Metric)
    : list Array * option Logs :=
  let '(new_metrics_vars, _) := acc in
  let this_metric_vars :=
    slice metrics_variables
      (length new_metrics_vars)
      (length new_metrics_vars + length (metric_variables metric)) in
  let this_metric_vars :=
    if String.eqb (metric_name metric) "loss"
    then stateless_update_state metric this_metric_vars [loss]
    else stateless_update_state metric this_metric_vars [y; y_pred] in
  let logs := stateless_result metric this_metric_vars in
  (new_metrics_vars ++ this_metric_vars, Some logs).

(** The whole loop, started with [new_metrics_vars = []] and [logs]
    unbound. *)
Definition update_metrics (ms : list Metric) (metrics_variables : list Array)
    (loss y y_pred : Array) : list Array * option Logs :=
  foldl (metric_step metrics_variables loss y y_pred) ([], None) ms.

(** [return logs, state]: reading the local [logs] raises
    [UnboundLocalError] when no iteration of the loop has bound it. *)
Definition return_logs {St : Type} (logs : option Logs) (state : St)
    : result (Logs * St) :=
  match logs with
  | Some l => Ok (l, state)
  | None => Raise (UnboundLocalError "logs")
  end.

End Framework.

(** ** Notebook cell "A first simple example": [class CustomModel] *)

Module SimpleExample.
Section CustomModel.
Context `{Backend}.

(** [CustomModel(keras.Model)] adds no attribute of its own. *)
Definition CustomModel : Type := Model.

(** [def compute_loss_and_updates(self, trainable_variables,
    non_trainable_variables, x, y, training=False)] *)
Definition compute_loss_and_updates
    (trainable_variables non_trainable_variables : list Array)
    (x y : Array) (training : bool)
    : M CustomModel (Array * (Array * list Array)) :=
  call ← getattr stateless_call;
  let '(y_pred, non_trainable_variables) :=
    call trainable_variables non_trainable_variables x training in
  loss_of ← getattr compute_loss;
  let loss := loss_of x y y_pred in
  mret (loss, (y_pred, non_trainable_variables)).

(** [jax.value_and_grad(self.compute_loss_and_updates, has_aux=True)] *)
Definition grad_fn (self : CustomModel)
    : list Array → list Array → Array → Array → bool →
      (Array * (Array * list Array)) * list Array :=
  value_and_grad
    (λ tv ntv x y training,
       bound_method self (compute_loss_and_updates tv ntv x y training)).

(** [def train_step(self, state, data)] *)
Definition train_step (state : TrainState) (data : Array * Array)
    : M CustomModel (result (Logs * TrainState)) :=
  let '(trainable_variables, non_trainable_variables,
        optimizer_variables, metrics_variables) := state in
  let '(x, y) := data in
  (* Get the gradient function. *)
  grad_fn ← getattr grad_fn;
  (* Compute the gradients. *)
  let '((loss, (y_pred, non_trainable_variables)), grads) :=
    grad_fn trainable_variables non_trainable_variables x y true in
  (* Update trainable variables and optimizer variables. *)
  opt ← getattr optimizer;
  let '(trainable_variables, optimizer_variables) :=
    stateless_apply opt optimizer_variables grads trainable_variables in
  (* Update metrics. *)
  ms ← getattr metrics;
  let '(new_metrics_vars, logs) :=
    update_metrics ms metrics_variables loss y y_pred in
  (* Return metric logs and updated state variables. *)
  let state :=
    (trainable_variables, non_trainable_variables,
     optimizer_variables, new_metrics_vars) in
  mret (return_logs logs state).

End CustomModel.
End SimpleExample.

(** ** Notebook cell "Going lower-level": [class CustomModel] *)

Module LowerLevel.
Section CustomModel.
Context `{Backend}.

(** The instance attributes that [__init__] adds to the [keras.Model]
    it extends, and the framework classes it instantiates them from:
    [keras.metrics.Mean], [keras.metrics.MeanAbsoluteError] (each makes a
    metric of the given name) and [keras.losses.MeanSquaredError] (a
    callable [loss_fn(y, y_pred)]). *)
Record CustomModel : Type := {
  super : Model;
  loss_tracker : Metric;
  mae_metric : Metric;
  loss_fn : Array → Array → Array;
}.

Record KerasClasses : Type := {
  Mean : string → Metric;
  MeanAbsoluteError : string → Metric;
  MeanSquaredError : Array → Array → Array;
}.

(** [def __init__(self, ...)], on the object that the call of
    [super().__init__] with the same arguments has made. *)
Definition __init__ (keras : KerasClasses) (base : Model) : CustomModel :=
  {| super := base;
     loss_tracker := Mean keras "loss";
     mae_metric := MeanAbsoluteError keras "mae";
     loss_fn := MeanSquaredError keras |}.

(** [def compute_loss_and_updates(self, trainable_variables,
    non_trainable_variables, x, y, training=False)] *)
Definition compute_loss_and_updates
    (trainable_variables non_trainable_variables : list Array)
    (x y : Array) (training : bool)
    : M CustomModel (Array * (Array * list Array)) :=
  call ← getattr (λ self, stateless_call (super self));
  let '(y_pred, non_trainable_variables) :=
    call trainable_variables non_trainable_variables x training in
  loss_of ← getattr loss_fn;
  let loss := loss_of y y_pred in
  mret (loss, (y_pred, non_trainable_variables)).

(** [jax.value_and_grad(self.compute_loss_and_updates, has_aux=True)] *)
Definition grad_fn (self : CustomModel)
    : list Array → list Array → Array → Array → bool →
      (Array * (Array * list Array)) * list Array :=
  value_and_grad
    (λ tv ntv x y training,
       bound_method self (compute_loss_and_updates tv ntv x y training)).

(** [def train_step(self, state, data)]; [logs] is a dict keyed by the
    metric names. *)
Definition train_step (state : TrainState) (data : Array * Array)
    : M CustomModel (gmap string Logs * TrainState) :=
  let '(trainable_variables, non_trainable_variables,
        optimizer_variables, metrics_variables) := state in
  let '(x, y) := data in
  (* Get the gradient function. *)
  grad_fn ← getattr grad_fn;
  (* Compute the gradients. *)
  let '((loss, (y_pred, non_trainable_variables)), grads) :=
    grad_fn trainable_variables non_trainable_variables x y true in
  (* Update trainable variables and optimizer variables. *)
  opt ← getattr (λ self, optimizer (super self));
  let '(trainable_variables, optimizer_variables) :=
    stateless_apply opt optimizer_variables grads trainable_variables in
  (* Update metrics. *)
  loss_tracker_ ← getattr loss_tracker;
  mae_metric_ ← getattr mae_metric;
  let loss_tracker_vars :=
    take (length (metric_variables loss_tracker_)) metrics_variables in
  let mae_metric_vars :=
    drop (length (metric_variables loss_tracker_)) metrics_variables in
  let loss_tracker_vars :=
    stateless_update_state loss_tracker_ loss_tracker_vars [loss] in
  let mae_metric_vars :=
    stateless_update_state mae_metric_ mae_metric_vars [y; y_pred] in
  let logs : gmap string Logs := ∅ in
  let logs :=
    <[metric_name loss_tracker_ := stateless_result loss_tracker_ loss_tracker_vars]> logs in
  let logs :=
    <[metric_name mae_metric_ := stateless_result mae_metric_ mae_metric_vars]> logs in
  let new_metrics_vars := loss_tracker_vars ++ mae_metric_vars in
  (* Return metric logs and updated state variables. *)
  let state :=
    (trainable_variables, non_trainable_variables,
     optimizer_variables, new_metrics_vars) in
  mret (logs, state).

(** [@property def metrics(self)] *)
Definition metrics : M CustomModel (list Metric) :=
  loss_tracker_ ← getattr loss_tracker;
  mae_metric_ ← getattr mae_metric;
  mret [loss_tracker_; mae_metric_].

End CustomModel.
End LowerLevel.

(** ** Notebook cell "Providing your own evaluation step" *)

Module Evaluation.
Section CustomModel.
Context `{Backend}.

Definition CustomModel : Type := Model.

(** [def test_step(self, state, data)] *)
Definition test_step (state : TestState) (data : Array * Array)
    : M CustomModel (result (Logs * TestState)) :=
  (* Unpack the data. *)
  let '(x, y) := data in
  let '(trainable_variables, non_trainable_variables, metrics_variables) :=
    state in
  (* Compute predictions and loss. *)
  call ← getattr stateless_call;
  let '(y_pred, non_trainable_variables) :=
    call trainable_variables non_trainable_variables x false in
  loss_of ← getattr compute_loss;
  let loss := loss_of x y y_pred in
  (* Update metrics. *)
  ms ← getattr metrics;
  let '(new_metrics_vars, logs) :=
    update_metrics ms metrics_variables loss y y_pred in
  (* Return metric logs and updated state variables. *)
  let state :=
    (trainable_variables, non_trainable_variables, new_metrics_vars) in
  mret (return_logs logs state).

End CustomModel.
End Evaluation.

(** ** The Sequential-model guide *)

Module SequentialGuide.

Local Open Scope N_scope.

(** *** The framework objects the guide shows

    Tensors are followed by their shape only: the cells of the guide
    call models on [ops.ones(...)] test inputs and look at layer lists,
    weights and summaries, never at entries. *)

Inductive Activation : Type := relu | linear.

(** The layers that the cells create.  The [name=...] keyword and the
    names that the framework generates ([dense_7], [conv2d_1]) are left
    out. *)
Inductive Layer : Type :=
| Dense (units : N) (activation : Activation)
| Conv2D (filters kernel_size strides : N) (activation : Activation)
| MaxPooling2D (pool_size : N)
| GlobalMaxPooling2D.

(** What [Sequential([...])] and [model.add(...)] accept:
    [keras.Input(shape=...)], which "isn't a layer", or a layer. *)
Inductive Item : Type :=
| Input (shape : list N)
| Lyr (l : Layer).
Coercion Lyr : Layer >-> Item.

Definition layer_type (l : Layer) : string :=
  match l with
  | Dense _ _ => "Dense"
  | Conv2D _ _ _ _ => "Conv2D"
  | MaxPooling2D _ => "MaxPooling2D"
  | GlobalMaxPooling2D => "GlobalMaxPooling2D"
  end.

(** Spatial size after a convolution window of size [k] moved by [s]
    over [n] positions without padding: [floor((n - k) / s) + 1], over
    the integers.  It is 0 or negative when the window is larger than
    the input. *)
Definition conv_output_size (n k s : N) : Z :=
  ((Z.of_N n - Z.of_N k) / Z.of_N s + 1)%Z.

Definition conv_output_length (n k s : N) : N := Z.to_N (conv_output_size n k s).

(** Spatial size after pooling windows of size [p] (moved by [p]) over
    [n] positions: [floor(n / p)], which is 0 when the window is larger
    than the input. *)
Definition pool_output_length (n p : N) : N := n / p.

(** The output shape of a layer on an input of shape [dims] (batch
    axis apart).  A window that is larger than the input gives an empty
    feature map; the framework's [ValueError] is for an output size that
    would be negative and for an input of the wrong rank.  (A stride or a
    pool size of 0 is refused when the layer is made.) *)
Definition compute_output_shape (l : Layer) (dims : list N)
    : result (list N) :=
  match l, dims with
  | Dense units _, _ :: _ => Ok (take (length dims - 1)%nat dims ++ [units])
  | Conv2D filters k s _, [h; w; _] =>
      if bool_decide (0 < s ∧ (0 ≤ conv_output_size h k s)%Z
                            ∧ (0 ≤ conv_output_size w k s)%Z)
      then Ok [conv_output_length h k s; conv_output_length w k s; filters]
      else Raise (ValueError "Conv2D: computed output size would be negative")
  | MaxPooling2D p, [h; w; c] =>
      if bool_decide (0 < p)
      then Ok [pool_output_length h p; pool_output_length w p; c]
      else Raise (ValueError "MaxPooling2D: pool size 0")
  | GlobalMaxPooling2D, [_; _; c] => Ok [c]
  | _, _ => Raise (ValueError "input rank incompatible with the layer")
  end.

(** The shapes of the weights a layer creates for an input of shape
    [dims]: kernel and bias for [Dense] ([(n, units)] and [(units,)])
    and for [Conv2D] ([(k, k, channels, filters)] and [(filters,)]),
    none for the pooling layers. *)
Definition weight_shapes (l : Layer) (dims : list N) : list (list N) :=
  match l with
  | Dense units _ => [[default 0 (last dims); units]; [units]]
  | Conv2D filters k _ _ => [[k; k; default 0 (last dims); filters]; [filters]]
  | MaxPooling2D _ | GlobalMaxPooling2D => []
  end.

(** The number of parameters: the number of entries of the weights.
    For [Dense] on [n] inputs this is [n * units + units], for [Conv2D]
    on [c] channels [k * k * c * filters + filters]. *)
Definition count_params (l : Layer) (dims : list N) : N :=
  foldr (λ shape acc, foldr N.mul 1 shape + acc) 0 (weight_shapes l dims).

(** A [keras.Sequential] object: its optional [name], its list of
    layers, and the input shape (batch size, other axes) once it is
    built. *)
Record Sequential : Type := {
  name : option string;
  layers : list Layer;
  input_shape : option (option N * list N);
}.

Definition built (model : Sequential) : bool :=
  bool_decide (is_Some (input_shape model)).

(** [model.add(item)], as the guide uses it: an [Input] is the first
    item that a model receives, and it is not one of [model.layers]
    ("the Input object is not displayed as part of model.layers, since
    it isn't a layer"). *)
Definition add (model : Sequential) (item : Item) : Sequential :=
  match item with
  | Input shape =>
      {| name := name model; layers := layers model;
         input_shape := Some (None, shape) |}
  | Lyr l =>
      {| name := name model; layers := layers model ++ [l];
         input_shape := input_shape model |}
  end.

(** [keras.Sequential(items, name=...)] *)
Definition new (items : list Item) (name : option string) : Sequential :=
  foldl add {| name := name; layers := []; input_shape := None |} items.

(** [model.pop()]: removes the last layer; the guide shows it on a
    model with layers only. *)
Definition pop (model : Sequential) : result Sequential :=
  match layers model with
  | [] => Raise (IndexError "There are no layers in the model.")
  | _ =>
      Ok {| name := name model;
            layers := take (length (layers model) - 1)%nat (layers model);
            input_shape := input_shape model |}
  end.

(** Feeding a stack of layers with an input of shape [dims]: every
    layer with the shape it receives and the shape it gives, and the
    shape that leaves the stack. *)
Fixpoint propagate (ls : list Layer) (dims : list N)
    : result (list (Layer * list N * list N) * list N) :=
  match ls with
  | [] => Ok ([], dims)
  | l :: ls =>
      match compute_output_shape l dims with
      | Raise e => Raise e
      | Ok out =>
          match propagate ls out with
          | Raise e => Raise e
          | Ok (fed, final) => Ok ((l, dims, out) :: fed, final)
          end
      end
  end.

(** [model(x)] on a tensor of shape [x]: the first call builds the
    model for the shape of [x]; a built model takes inputs of the shape
    it was built for, with any batch size.  The result is the output
    tensor (its shape) and the model as the call leaves it. *)
Definition call (model : Sequential) (x : list N)
    : result (list N * Sequential) :=
  match x with
  | [] => Raise (ValueError "a model is called on a batch of inputs")
  | batch :: dims =>
      match input_shape model with
      | Some (_, built_dims) =>
          if bool_decide (built_dims = dims)
          then
            match propagate (layers model) dims with
            | Raise e => Raise e
            | Ok (_, out) => Ok (batch :: out, model)
            end
          else Raise (ValueError "input incompatible with the model")
      | None =>
          match propagate (layers model) dims with
          | Raise e => Raise e
          | Ok (_, out) =>
              Ok (batch :: out,
                  {| name := name model; layers := layers model;
                     input_shape := Some (Some batch, dims) |})
          end
      end
  end.

(** [model.weights]: the weights of the layers, in order.  A model that
    is not built "has no weights": its layers have created none, and the
    list is empty.  (The guide's text speaks of an error at this point;
    no cell runs the statement.) *)
Definition weights (model : Sequential) : result (list (list N)) :=
  match input_shape model with
  | None => Ok []
  | Some (_, dims) =>
      match propagate (layers model) dims with
      | Raise e => Raise e
      | Ok (fed, _) =>
          Ok (concat (map (λ '(l, d, _), weight_shapes l d) fed))
      end
  end.

(** One row of the table printed by [model.summary()]: layer type,
    output shape with the batch axis first ([None] when the model was
    built from an [Input]), and parameter count.  The output shape of a
    layer that is not built is not known (the table shows [?]). *)
Record Row : Type := {
  row_type : string;
  row_output_shape : option (option N * list N);
  row_params : N;
}.

Record Summary : Type := {
  rows : list Row;
  total_params : N;
  trainable_params : N;
  non_trainable_params : N;
}.

(** [model.summary()]: "Once a model is built, you can call its
    summary() method to display its contents".  The models that the
    cells summarise have trainable layers only.  For a model that is not
    built the table has a row per layer without output shape and
    without parameters. *)
Definition summary (model : Sequential) : result Summary :=
  match input_shape model with
  | None =>
      Ok {| rows := map (λ l, {| row_type := layer_type l;
                                 row_output_shape := None;
                                 row_params := 0 |}) (layers model);
            total_params := 0; trainable_params := 0;
            non_trainable_params := 0 |}
  | Some (batch, dims) =>
      match propagate (layers model) dims with
      | Raise e => Raise e
      | Ok (fed, _) =>
          let table :=
            map (λ '(l, d, out),
                   {| row_type := layer_type l;
                      row_output_shape := Some (batch, out);
                      row_params := count_params l d |}) fed in
          let total := foldr (λ r acc, row_params r + acc) 0 table in
          Ok {| rows := table; total_params := total;
                trainable_params := total; non_trainable_params := 0 |}
      end
  end.

(** A layer object on its own ([layer = layers.Dense(3)]): the layer
    and, once it has been called, the input shape it was built for. *)
Record LayerObj : Type := {
  layer : Layer;
  built_for : option (list N);
}.

(** [layer.weights]: empty until the layer is called ("initially, it
    has no weights"), then the weights for the input it first saw. *)
Definition layer_weights (o : LayerObj) : list (list N) :=
  match built_for o with
  | None => []
  | Some dims => weight_shapes (layer o) dims
  end.

(** [layer(x)]: "It creates its weights the first time it is called on
    an input". *)
Definition layer_call (o : LayerObj) (x : list N)
    : result (list N * LayerObj) :=
  match x with
  | [] => Raise (ValueError "a layer is called on a batch of inputs")
  | batch :: dims =>
      match compute_output_shape (layer o) dims with
      | Raise e => Raise e
      | Ok out =>
          Ok (batch :: out,
              match built_for o with
              | Some _ => o
              | None => {| layer := layer o; built_for := Some dims |}
              end)
      end
  end.

(** *** The interpreter session that runs the cells

    The cells of the guide run one after the other in one Python
    session: a namespace of global names and the output shown so far.
    In the cells below every object is reachable through one name only,
    so a method that changes an object ([model.add], [model.pop], a
    first call) is the rebinding of that name to the changed object. *)

Inductive Value : Type :=
| VModule (qualname : string)
| VSequential (model : Sequential)
| VLayer (o : LayerObj)
| VTensor (shape : list N).

(** What a cell shows: the text of a [print], or the value of the
    expression that ends the cell. *)
Inductive Output : Type :=
| PrintInt (n : nat)
| PrintStrInt (text : string) (n : nat)
| ShowLayers (ls : list (string * bool))
| ShowWeights (ws : list (list N))
| ShowSummary (s : Summary).

Record Kernel : Type := {
  globals : gmap string Value;
  stdout : list Output;
}.

(** A piece of Python run in the session: it ends with a value and the
    session as it leaves it, or with an exception. *)
Definition Py (A : Type) : Type := Kernel → result (A * Kernel).

Global Instance Py_ret : MRet Py := λ A a k, Ok (a, k).

Global Instance Py_bind : MBind Py :=
  λ A B f m k,
    match m k with
    | Raise e => Raise e
    | Ok (a, k') => f a k'
    end.

(** Reading a global name. *)
Definition load (n : string) : Py Value :=
  λ k,
    match globals k !! n with
    | Some v => Ok (v, k)
    | None => Raise (NameError n)
    end.

(** [n = v] *)
Definition store (n : string) (v : Value) : Py unit :=
  λ k, Ok (tt, {| globals := <[n := v]> (globals k); stdout := stdout k |}).

Definition display (o : Output) : Py unit :=
  λ k, Ok (tt, {| globals := globals k; stdout := stdout k ++ [o] |}).

(** The outcome of a framework call, inside the session. *)
Definition lift {A : Type} (r : result A) : Py A :=
  λ k,
    match r with
    | Ok a => Ok (a, k)
    | Raise e => Raise e
    end.

(** Reading a name whose value is used as a model, a layer, a tensor. *)
Definition the_model (n : string) : Py Sequential :=
  v ← load n;
  match v with
  | VSequential m => mret m
  | _ => lift (Raise (TypeError "not a Sequential model"))
  end.

Definition the_layer (n : string) : Py LayerObj :=
  v ← load n;
  match v with
  | VLayer o => mret o
  | _ => lift (Raise (TypeError "not a layer"))
  end.

Definition the_tensor (n : string) : Py (list N) :=
  v ← load n;
  match v with
  | VTensor t => mret t
  | _ => lift (Raise (TypeError "not a tensor"))
  end.

(** [model.add(layers.L(...))] and [model.add(keras.Input(...))]: the
    model is looked up first, then the module the argument comes from. *)
Definition model_add (module : string) (item : Item) : Py unit :=
  m ← the_model "model";
  load module;;
  store "model" (VSequential (add m item)).

(** [y = model(x)] *)
Definition y_is_model_of_x : Py unit :=
  m ← the_model "model";
  x ← the_tensor "x";
  '(y, m') ← lift (call m x);
  store "model" (VSequential m');;
  store "y" (VTensor y).

(** [model.summary()] *)
Definition model_summary : Py unit :=
  m ← the_model "model";
  s ← lift (summary m);
  display (ShowSummary s).

(** A layer just made by [layers.L(...)]. *)
Definition fresh_layer (l : Layer) : Value :=
  VLayer {| layer := l; built_for := None |}.

(** [out = layer(inp)] for a layer bound to the name [f] and a tensor
    value [inp]; gives the output tensor. *)
Definition apply_layer (f : string) (inp : list N) : Py (list N) :=
  o ← the_layer f;
  '(out, o') ← lift (layer_call o inp);
  store f (VLayer o');;
  mret out.

(** *** The code cells of the guide, in document order *)

(** Setup: [import keras_core as keras], [from keras_core import
    layers], [from keras_core import ops]. *)
Definition cell_setup : Py unit :=
  store "keras" (VModule "keras_core");;
  store "layers" (VModule "keras_core.layers");;
  store "ops" (VModule "keras_core.ops").

(** The three-layer stack [Dense(2, relu), Dense(3, relu), Dense(4)]
    that most cells build. *)
Definition three_dense : list Item :=
  [Lyr (Dense 2 relu); Lyr (Dense 3 relu); Lyr (Dense 4 linear)].

(** "When to use a Sequential model", first cell:
    [model = keras.Sequential([...]); x = ops.ones((3, 3)); y = model(x)] *)
Definition cell_schematic_model : Py unit :=
  load "keras";; load "layers";;
  store "model" (VSequential (new three_dense None));;
  load "ops";;
  store "x" (VTensor [3; 3]);;
  y_is_model_of_x.

(** Second cell: [layer1 = ...; layer2 = ...; layer3 = ...;
    x = ops.ones((3, 3)); y = layer3(layer2(layer1(x)))] *)
Definition cell_schematic_function : Py unit :=
  load "layers";; store "layer1" (fresh_layer (Dense 2 relu));;
  load "layers";; store "layer2" (fresh_layer (Dense 3 relu));;
  load "layers";; store "layer3" (fresh_layer (Dense 4 linear));;
  load "ops";;
  store "x" (VTensor [3; 3]);;
  load "layer3";; load "layer2";; load "layer1";;
  x ← the_tensor "x";
  h1 ← apply_layer "layer1" x;
  h2 ← apply_layer "layer2" h1;
  y ← apply_layer "layer3" h2;
  store "y" (VTensor y).

(** "Creating a Sequential model": [model = keras.Sequential([...])] *)
Definition cell_create : Py unit :=
  load "keras";; load "layers";;
  store "model" (VSequential (new three_dense None)).

(** [model.layers], shown as the type and [built] flag of each layer. *)
Definition cell_layers : Py unit :=
  m ← the_model "model";
  display (ShowLayers (map (λ l, (layer_type l, built m)) (layers m))).

(** [model = keras.Sequential()] and three [model.add(...)] *)
Definition cell_add : Py unit :=
  load "keras";;
  store "model" (VSequential (new [] None));;
  model_add "layers" (Dense 2 relu);;
  model_add "layers" (Dense 3 relu);;
  model_add "layers" (Dense 4 linear).

(** [model.pop(); print(len(model.layers))] *)
Definition cell_pop : Py unit :=
  m ← the_model "model";
  m' ← lift (pop m);
  store "model" (VSequential m');;
  m ← the_model "model";
  display (PrintInt (length (layers m))).

(** [model = keras.Sequential(name="my_sequential")] and three adds *)
Definition cell_named : Py unit :=
  load "keras";;
  store "model" (VSequential (new [] (Some "my_sequential")));;
  model_add "layers" (Dense 2 relu);;
  model_add "layers" (Dense 3 relu);;
  model_add "layers" (Dense 4 linear).

(** "Specifying the input shape in advance":
    [layer = layers.Dense(3); layer.weights] *)
Definition cell_layer : Py unit :=
  load "layers";;
  store "layer" (fresh_layer (Dense 3 linear));;
  o ← the_layer "layer";
  display (ShowWeights (layer_weights o)).

(** [x = ops.ones((1, 4)); y = layer(x); layer.weights] *)
Definition cell_layer_call : Py unit :=
  load "ops";;
  store "x" (VTensor [1; 4]);;
  load "layer";;
  x ← the_tensor "x";
  y ← apply_layer "layer" x;
  store "y" (VTensor y);;
  o ← the_layer "layer";
  display (ShowWeights (layer_weights o)).

(** The cell that builds a model by calling it.  (Its statements
    [model.weights] and [model.summary()] stand in comments and are not
    run.) *)
Definition cell_build_by_call : Py unit :=
  load "keras";; load "layers";;
  store "model" (VSequential (new three_dense None));;
  load "ops";;
  store "x" (VTensor [1; 4]);;
  y_is_model_of_x;;
  m ← the_model "model";
  ws ← lift (weights m);
  display (PrintStrInt "Number of weights after calling the model:" (length ws)).

(** [model.summary()] *)
Definition cell_summary : Py unit := model_summary.

(** [model = keras.Sequential(); model.add(keras.Input(shape=(4,)));
    model.add(layers.Dense(2, activation="relu")); model.summary()] *)
Definition cell_input_first : Py unit :=
  load "keras";;
  store "model" (VSequential (new [] None));;
  model_add "keras" (Input [4]);;
  model_add "layers" (Dense 2 relu);;
  model_summary.

(** "A common debugging workflow: add() + summary()" *)
Definition cell_debugging : Py unit :=
  load "keras";;
  store "model" (VSequential (new [] None));;
  model_add "keras" (Input [250; 250; 3]);;
  model_add "layers" (Conv2D 32 5 2 relu);;
  model_add "layers" (Conv2D 32 3 1 relu);;
  model_add "layers" (MaxPooling2D 3);;
  model_summary;;
  model_add "layers" (Conv2D 32 3 1 relu);;
  model_add "layers" (Conv2D 32 3 1 relu);;
  model_add "layers" (MaxPooling2D 3);;
  model_add "layers" (Conv2D 32 3 1 relu);;
  model_add "layers" (Conv2D 32 3 1 relu);;
  model_add "layers" (MaxPooling2D 2);;
  model_summary;;
  model_add "layers" GlobalMaxPooling2D;;
  model_add "layers" (Dense 10 linear).

(** The cells from "Setup" to the debugging workflow, in the order of
    the document.  ([model.layers] stands twice in the guide.) *)
Definition guide : list (Py unit) :=
  [ cell_setup; cell_schematic_model; cell_schematic_function; cell_create;
    cell_layers; cell_add; cell_pop; cell_named; cell_layer; cell_layer_call;
    cell_build_by_call; cell_summary; cell_input_first;
    cell_layers; cell_debugging ].

(** *** What the guide displays under its cells *)

Definition row (type : string) (batch : option N) (dims : list N)
    (params : N) : Row :=
  {| row_type := type; row_output_shape := Some (batch, dims);
     row_params := params |}.

Definition table (rs : list Row) (total : N) : Summary :=
  {| rows := rs; total_params := total;
     trainable_params := total; non_trainable_params := 0 |}.

(** The summary of the three Dense layers called on [ops.ones((1, 4))]. *)
Definition displayed_dense_summary : Summary :=
  table [ row "Dense" (Some 1) [2] 10;
          row "Dense" (Some 1) [3] 9;
          row "Dense" (Some 1) [4] 16 ] 35.

(** The summary of [Input(shape=(4,))] followed by [Dense(2)]. *)
Definition displayed_input_first_summary : Summary :=
  table [ row "Dense" None [2] 10 ] 10.

(** The first summary of the debugging workflow. *)
Definition displayed_conv_summary_1 : Summary :=
  table [ row "Conv2D" None [123; 123; 32] 2432;
          row "Conv2D" None [121; 121; 32] 9248;
          row "MaxPooling2D" None [40; 40; 32] 0 ] 11680.

(** Its second summary. *)
Definition displayed_conv_summary_2 : Summary :=
  table [ row "Conv2D" None [123; 123; 32] 2432;
          row "Conv2D" None [121; 121; 32] 9248;
          row "MaxPooling2D" None [40; 40; 32] 0;
          row "Conv2D" None [38; 38; 32] 9248;
          row "Conv2D" None [36; 36; 32] 9248;
          row "MaxPooling2D" None [12; 12; 32] 0;
          row "Conv2D" None [10; 10; 32] 9248;
          row "Conv2D" None [8; 8; 32] 9248;
          row "MaxPooling2D" None [4; 4; 32] 0 ] 48672.

(** The output under each cell of [guide], cell by cell. *)
Definition displayed : list (list Output) :=
  [ []; []; []; [];
    [ShowLayers [("Dense", false); ("Dense", false); ("Dense", false)]];
    [];
    [PrintInt 2%nat];
    [];
    [ShowWeights []];
    [ShowWeights [[4; 3]; [3]]];
    [PrintStrInt "Number of weights after calling the model:" 6%nat];
    [ShowSummary displayed_dense_summary];
    [ShowSummary displayed_input_first_summary];
    [ShowLayers [("Dense", true)]];
    [ShowSummary displayed_conv_summary_1;
     ShowSummary displayed_conv_summary_2] ].

(** *** Running cells *)

Definition fresh_session : Kernel := {| globals := ∅; stdout := [] |}.

Definition run_cell (c : Py unit) (k : Kernel) : result Kernel :=
  match c k with
  | Ok (_, k') => Ok k'
  | Raise e => Raise e
  end.

(** Running cells one after the other; the first exception ends the run. *)
Fixpoint run_cells (cs : list (Py unit)) (k : Kernel) : result Kernel :=
  match cs with
  | [] => Ok k
  | c :: cs =>
      match run_cell c k with
      | Ok k' => run_cells cs k'
      | Raise e => Raise e
      end
  end.

(** What a cell shows when it is run in the session [k]. *)
Definition shown (c : Py unit) (k : Kernel) : result (list Output) :=
  match run_cell c {| globals := globals k; stdout := [] |} with
  | Ok k' => Ok (stdout k')
  | Raise e => Raise e
  end.

(** What the cells [cs] show when each is run after the [before] ones. *)
Definition shown_after (before : list (Py unit)) (c : Py unit)
    : result (list Output) :=
  match run_cells before fresh_session with
  | Ok k => shown c k
  | Raise e => Raise e
  end.

(** Cell number [n] of the guide run in document order, run on its
    own in a fresh session, and run after "Setup" only. *)
Definition in_document_order (n : nat) : result (list Output) :=
  match guide !! n with
  | Some c => shown_after (take n guide) c
  | None => Raise (IndexError "no such cell")
  end.

Definition in_isolation (n : nat) : result (list Output) :=
  match guide !! n with
  | Some c => shown_after [] c
  | None => Raise (IndexError "no such cell")
  end.

Definition after_setup_only (n : nat) : result (list Output) :=
  match guide !! n with
  | Some c => shown_after [cell_setup] c
  | None => Raise (IndexError "no such cell")
  end.

End SequentialGuide.


(** ** Calling a Sequential model on tensor values *)

Module SequentialCall.
Section Tensors.

(** The entries of a tensor ([float32] in the framework) with their
    addition, multiplication and [relu]. *)
Context {R : Type} (plus times : R → R → R) (relu : R → R).

(** A batch of rows: a tensor of shape [(batch, features)]. *)
Definition Tensor : Type := list (list R).

Definition vec_add (u v : list R) : list R := zip_with plus u v.
Definition scale (c : R) (v : list R) : list R := map (times c) v.

(** A built [layers.Dense] object: its kernel of shape
    [(features, units)], given by rows, its bias of shape [(units,)],
    and whether its activation is [relu]. *)
Record DenseLayer : Type := {
  kernel : list (list R);
  bias : list R;
  use_relu : bool;
}.

(** [layer(x)] for a Dense layer: [activation(x @ kernel + bias)]. *)
Definition dense (d : DenseLayer) (x : Tensor) : Tensor :=
  map (λ xr,
         map (if use_relu d then relu else id)
             (foldr vec_add (bias d) (zip_with scale xr (kernel d))))
      x.

(** A layer with one input tensor and one output tensor, as a callable. *)
Definition Layer : Type := Tensor → Tensor.

Record Sequential : Type := { layers : list Layer }.

(** [model.add(layer)] *)
Definition add (model : Sequential) (l : Layer) : Sequential :=
  {| layers := layers model ++ [l] |}.

(** [keras.Sequential(layers)] *)
Definition new (ls : list Layer) : Sequential :=
  foldl add {| layers := [] |} ls.

(** Modelled from the spec: [keras.Sequential.__call__] is code of the
    framework and is not in the repository; the guide describes a
    Sequential model as "a plain stack of layers where each layer has
    exactly one input tensor and one output tensor".  The call runs the
    loop [for layer in self.layers: outputs = layer(inputs);
    inputs = outputs] and returns the last [outputs]. *)
Definition call (model : Sequential) (x : Tensor) : Tensor :=
  foldl (λ inputs (l : Layer), l inputs) x (layers model).

(** The composition of layers read from left to right: the first layer
    of the list is applied first. *)
Fixpoint compose (ls : list Layer) : Layer :=
  match ls with
  | [] => id
  | l :: ls => compose ls ∘ l
  end.

End Tensors.

(** [ops.ones((3, 3))] and concrete weights over [Z], to run both
    forms of the guide's first example. *)
Definition ones_3_3 : Tensor (R := Z) := replicate 3 (replicate 3 1%Z).

Definition layer1 : DenseLayer (R := Z) :=
  {| kernel := [[1; -2]; [0; 1]; [2; -1]]%Z; bias := [0; 1]%Z;
     use_relu := true |}.
Definition layer2 : DenseLayer (R := Z) :=
  {| kernel := [[1; 0; -1]; [2; 1; 1]]%Z; bias := [-1; 0; 2]%Z;
     use_relu := true |}.
Definition layer3 : DenseLayer (R := Z) :=
  {| kernel := [[1; 2; 3; 4]; [0; -1; 0; 1]; [1; 1; 1; 1]]%Z;
     bias := [0; 0; 0; 5]%Z; use_relu := false |}.

Definition relu_Z (z : Z) : Z := Z.max 0 z.

End SequentialCall.


(** ** Reading the metric loop

    The loop of [train_step] and [test_step], metric by metric. *)

Section MetricLoop.
Context `{Backend}.

(** The call that one iteration makes for its metric on the variables
    [vars]: [stateless_update_state(vars, loss)] for the metric named
    [loss], [stateless_update_state(vars, y, y_pred)] for the others. *)
Definition updated (metric : Metric) (vars : list Array) (loss y y_pred : Array)
    : list Array :=
  if String.eqb (metric_name metric) "loss"
  then stateless_update_state metric vars [loss]
  else stateless_update_state metric vars [y; y_pred].

(** The updated variables of each metric, in the order of the metrics:
    a metric works on the slice of [metrics_variables] that starts at
    [offset], where the updated variables of the metrics before it end,
    and is as long as its own [variables]. *)
Fixpoint updated_vars (ms : list Metric) (metrics_variables : list Array)
    (loss y y_pred : Array) (offset : nat) : list (list Array) :=
  match ms with
  | [] => []
  | metric :: ms =>
      let this :=
        updated metric
          (slice metrics_variables offset
             (offset + length (metric_variables metric)))
          loss y y_pred in
      this :: updated_vars ms metrics_variables loss y y_pred
                (offset + length this)
  end.

(** The number of variables that the metrics hold together. *)
Definition count_variables (ms : list Metric) : nat :=
  foldr (λ metric n, length (metric_variables metric) + n) 0 ms.

End MetricLoop.

(** ** A toy framework

    An implementation of the interface over integers, small enough to
    run the methods of the notebook on. *)

Module Toy.

Definition total (zs : list Z) : Z := foldr Z.add 0%Z zs.

Definition backend : Backend :=
  {| Array := Z;
     Logs := Z;
     value_and_grad := λ Aux f tv ntv x y training,
       (f tv ntv x y training, map (λ _, 1%Z) tv) |}.
#[local] Existing Instance backend.

(** A metric with [n] variables: an update adds the sum of its
    arguments to each, the result is their sum. *)
Definition metric (name : string) (n : nat) : Metric :=
  {| metric_name := name;
     metric_variables := replicate n 0%Z;
     stateless_update_state := λ vars args, map (Z.add (total args)) vars;
     stateless_result := total |}.

Definition sgd : Optimizer :=
  {| stateless_apply := λ optimizer_variables grads trainable_variables,
       (zip_with Z.sub trainable_variables grads,
        map Z.succ optimizer_variables) |}.

Definition model (ms : list Metric) : Model :=
  {| stateless_call := λ tv ntv x training, ((x + total tv)%Z, ntv);
     compute_loss := λ x y y_pred, ((y - y_pred) * (y - y_pred))%Z;
     optimizer := sgd;
     metrics := ms |}.

Definition keras : LowerLevel.KerasClasses :=
  {| LowerLevel.Mean := λ name, metric name 2;
     LowerLevel.MeanAbsoluteError := λ name, metric name 2;
     LowerLevel.MeanSquaredError := λ y y_pred, ((y - y_pred) * (y - y_pred))%Z |}.

Definition two_metrics : list Metric := [metric "loss" 1; metric "mae" 2].

Definition train_state : TrainState :=
  ([1; 2]%Z, [5]%Z, [0]%Z, [10; 20; 30]%Z).
Definition test_state : TestState := ([1; 2]%Z, [5]%Z, [10; 20; 30]%Z).
Definition batch : Array * Array := (3%Z, 4%Z).

End Toy.

(** ** The contract of [jax.value_and_grad] *)

Section JaxContract.
Context `{Backend}.

(** With [has_aux=True], [jax.value_and_grad(f)] returns, beside the
    gradients, what [f] itself returns at the same arguments. *)
Definition returns_the_value : Prop :=
  ∀ (Aux : Type)
    (f : list Array → list Array → Array → Array → bool → Array * Aux)
    tv ntv x y training,
    (value_and_grad f tv ntv x y training).1 = f tv ntv x y training.

End JaxContract.

(** ** The Sequential guide: feature extraction *)

Module FeatureExtraction.
Import SequentialGuide.
Local Open Scope N_scope.

(** [[layer.output for layer in initial_model.layers]]: "Once a
    Sequential model has been built, it behaves like a Functional API
    model.  This means that every layer has an input and output
    attribute."  The outputs are symbolic tensors, followed by their
    shape, batch axis first. *)
Definition layer_outputs (model : Sequential)
    : result (list (option N * list N)) :=
  match input_shape model with
  | None => Raise (ValueError "the model has not yet been built")
  | Some (batch, dims) =>
      match propagate (layers model) dims with
      | Raise e => Raise e
      | Ok (fed, _) => Ok (map (λ '(_, _, out), (batch, out)) fed)
      end
  end.

(** [feature_extractor = keras.Model(inputs=initial_model.inputs,
    outputs=[layer.output for layer in initial_model.layers])] followed
    by [features = feature_extractor(x)]: the outputs of all the layers
    of [initial_model] for the input [x], which must have the shape
    that the model was built for. *)
Definition extract_features (initial_model : Sequential) (x : list N)
    : result (list (list N)) :=
  match input_shape initial_model, x with
  | None, _ => Raise (ValueError "the model has not yet been built")
  | Some _, [] => Raise (ValueError "a model is called on a batch of inputs")
  | Some (_, dims), batch :: dims' =>
      if bool_decide (dims = dims')
      then
        match propagate (layers initial_model) dims with
        | Raise e => Raise e
        | Ok (fed, _) => Ok (map (λ '(_, _, out), batch :: out) fed)
        end
      else Raise (ValueError "input incompatible with the model")
  end.

(** The model of the first [n] layers of [model]. *)
Definition truncate (n : nat) (model : Sequential) : Sequential :=
  {| name := name model; layers := take n (layers model);
     input_shape := input_shape model |}.

(** The [initial_model] of both cells: [Input(shape=(250, 250, 3))] and
    three [Conv2D] layers. *)
Definition initial_model : Sequential :=
  new [Input [250; 250; 3]; Lyr (Conv2D 32 5 2 relu);
       Lyr (Conv2D 32 3 1 relu); Lyr (Conv2D 32 3 1 relu)] None.

End FeatureExtraction.

(** ** The Sequential guide: freezing layers for transfer learning *)

Module TransferLearning.
Import SequentialGuide.
Local Open Scope N_scope.

(** A layer object with its [trainable] attribute ([True] when the
    layer is made). *)
Record LayerObject : Type := {
  kind : Layer;
  trainable : bool;
}.

(** The layer objects of the session, by identity.  A model holds the
    identities of its layers: [model.layers] and every slice of it are
    lists of the same objects, so an assignment to [layer.trainable] is
    seen through the model. *)
Abbreviation Heap := (gmap nat LayerObject).

(** [layer.trainable = b] on the object [id] *)
Definition set_trainable (b : bool) (id : nat) (h : Heap) : Heap :=
  alter (λ o, {| kind := kind o; trainable := b |}) id h.

(** A layer object after [layer.trainable = False]. *)
Definition frozen (o : LayerObject) : LayerObject :=
  {| kind := kind o; trainable := false |}.

(** [l[:-1]]: all elements but the last, [[]] for an empty list. *)
Definition all_but_last {A : Type} (l : list A) : list A :=
  take (length l - 1)%nat l.

(** [for layer in model.layers[:-1]: layer.trainable = False] for the
    model whose layers are [ids]. *)
Definition freeze_all_but_last (ids : list nat) (h : Heap) : Heap :=
  foldl (λ h id, set_trainable false id h) h (all_but_last ids).

(** The layer objects of a model, in order. *)
Definition objects (ids : list nat) (h : Heap) : list LayerObject :=
  omap (λ id, h !! id) ids.

(** For a model built for inputs of shape [dims]: the numbers of
    parameters in trainable and in frozen layers (the "Trainable
    params" and "Non-trainable params" of a summary). *)
Definition params (ids : list nat) (h : Heap) (dims : list N)
    : result (N * N) :=
  let objs := objects ids h in
  match propagate (kind <$> objs) dims with
  | Raise e => Raise e
  | Ok (fed, _) =>
      let counted :=
        zip_with (λ o '(l, d, _), (trainable o, count_params l d)) objs fed in
      Ok (foldr (λ '(t, n) acc, if t : bool then n + acc else acc) 0 counted,
          foldr (λ '(t, n) acc, if t : bool then acc else n + acc) 0 counted)
  end.

(** The model of the first blueprint: [Input(shape=(784))], three
    [Dense(32, relu)] and [Dense(10)], its layers being the objects 0
    to 3 of a session that holds nothing else. *)
Definition blueprint_ids : list nat := [0; 1; 2; 3]%nat.
Definition blueprint_heap : Heap :=
  list_to_map
    [ (0%nat, {| kind := Dense 32 relu; trainable := true |});
      (1%nat, {| kind := Dense 32 relu; trainable := true |});
      (2%nat, {| kind := Dense 32 relu; trainable := true |});
      (3%nat, {| kind := Dense 10 linear; trainable := true |}) ].

End TransferLearning.

(** ** Dense stacks *)

Definition is_dense (l : SequentialGuide.Layer) : Prop :=
  match l with
  | SequentialGuide.Dense _ _ => True
  | _ => False
  end.

(** The number of entries of a list of weights of the given shapes. *)
Definition entries (ws : list (list N)) : N :=
  foldr (λ shape acc, foldr N.mul 1%N shape + acc)%N 0%N ws.

(** ** The names that the framework generates

    An object that is made without [name=...] is named after its class,
    followed by the number of unnamed objects of that class that the
    session has made before: the outputs under the cells show [dense],
    [dense_1], [dense_2], then [dense_7] to [dense_10], [sequential_3] to
    [sequential_5] and [variable_12], [variable_13]. *)

Module GeneratedNames.

Definition name_of (base : string) (k : nat) : string :=
  match k with
  | 0 => base
  | _ => base +:+ "_" +:+ pretty k
  end.

(** How many of the objects made [before] are of the class [base]. *)
Definition count (base : string) (before : list string) : nat :=
  length (filter (base =.) before).

(** The names of the objects [made] (their classes, in the order in
    which they are made) in a session that has made [before]. *)
Fixpoint generate (before made : list string) : list string :=
  match made with
  | [] => []
  | base :: made =>
      name_of base (count base before) :: generate (before ++ [base]) made
  end.

(** The layers, models and variables that the cells of the Sequential
    guide make without a name, cell by cell from "Setup" to the
    debugging workflow.  A [Dense] or [Conv2D] layer makes two
    variables, kernel and bias, when it is built: at its first call, at
    the first call of its model, or when it is added to a model that
    starts with an [Input]. *)
Definition built_layer (base : string) : list string :=
  [base; "variable"; "variable"].

Definition unnamed_objects : list (list string) :=
  [ [];
    "sequential" :: replicate 6 "variable";
    replicate 6 "variable";
    ["dense"; "dense"; "dense"; "sequential"];
    [];
    ["sequential"; "dense"; "dense"; "dense"];
    [];
    [];
    ["dense"];
    ["variable"; "variable"];
    ["dense"; "dense"; "dense"; "sequential"] ++ replicate 6 "variable";
    [];
    "sequential" :: built_layer "dense";
    [];
    "sequential"
    :: built_layer "conv2d" ++ built_layer "conv2d" ++ ["max_pooling2d"]
    ++ built_layer "conv2d" ++ built_layer "conv2d" ++ ["max_pooling2d"]
    ++ built_layer "conv2d" ++ built_layer "conv2d" ++ ["max_pooling2d"]
    ++ ["global_max_pooling2d"] ++ built_layer "dense" ].

(** The names that cell [n] generates after the cells [earlier]. *)
Definition generated_after (earlier : list (list string)) (n : nat)
    : list string :=
  generate (concat earlier) (default [] (unnamed_objects !! n)).

Definition generated_in_document_order (n : nat) : list string :=
  generated_after (take n unnamed_objects) n.

Definition generated_in_isolation (n : nat) : list string :=
  generated_after [] n.

(** The generated names that the guide displays, each list with the
    cell that made the objects. *)
Definition displayed_names : list (nat * list string) :=
  [ (3, ["dense"; "dense_1"; "dense_2"]);
    (9, ["variable_12"; "variable_13"]);
    (10, ["dense_7"; "dense_8"; "dense_9"; "sequential_3"]);
    (12, ["sequential_4"; "dense_10"]);
    (14, ["sequential_5"; "conv2d"; "conv2d_1"; "max_pooling2d"; "conv2d_2";
          "conv2d_3"; "max_pooling2d_1"; "conv2d_4"; "conv2d_5";
          "max_pooling2d_2"]) ]%nat.

End GeneratedNames.

(** ** Calls of the notebook's methods, one after the other *)

Section MethodCalls.
Context `{Backend}.







End MethodCalls.

(** ** The code cells of both guides, in outline

    Which names a cell reads and binds, and which kinds of statement it
    is made of, does not depend on the framework.  Every statement of
    every code cell is followed here by its kind, the names it reads, in
    the order in which Python evaluates them, and the names it binds;
    compound statements keep their bodies. *)

Module Outline.

(** The statements, named as in Python's [ast] module where it has the
    statement.  [Assign reads binds] is an assignment and [Expr reads]
    an expression statement; [AugAssign target reads] reads its target
    before the value and binds it; [SetAttr] and [SetItem] assign to an
    attribute or to an item of the object named [obj], which is read
    after the value ([index] are the names read for the subscript);
    [For targets reads body] reads the iterable and binds its targets;
    [Commented s] is a statement that stands in a comment. *)
#[warnings="-register-all"]
Inductive stmt : Type :=
| ImportAs (names : list string)
| Assign (reads binds : list string)
| AugAssign (target : string) (reads : list string)
| SetAttr (reads : list string) (obj attr : string)
| SetItem (reads : list string) (obj : string) (index : list string)
| Expr (reads : list string)
| Return (reads : list string)
| If (reads : list string) (body orelse : list stmt)
| For (targets reads : list string) (body : list stmt)
| FunctionDef (decorators : list string) (name : string)
    (params : list string) (body : list stmt)
| ClassDef (name : string) (bases : list string) (body : list stmt)
| Try (body handlers finalbody : list stmt)
| With (reads binds : list string) (body : list stmt)
| RaiseStmt (reads : list string)
| Assert (reads : list string)
| Commented (s : stmt).

(** A code cell: its statements, in order. *)
Definition Cell : Type := list stmt.

(** The builtins that the cells use; they are bound in every session. *)
Definition builtins : list string := ["print"; "len"; "super"; "property"].

Definition is_bound (g : list string) (n : string) : bool :=
  bool_decide (n ∈ g) || bool_decide (n ∈ builtins).

(** Reading names one after the other where the names [g] are bound:
    the first name that is not bound is a [NameError]. *)
Fixpoint read (ns : list string) (g : list string) : result unit :=
  match ns with
  | [] => Ok tt
  | n :: ns => if is_bound g n then read ns g else Raise (NameError n)
  end.

(** Running a statement at the top level of a cell in a session where
    the names [g] are bound: the names that are bound for certain when
    the statement has completed, or the [NameError] of a name that is
    read unbound.  The body of a function is not run by its definition.
    Of the two branches of an [if], the names that both bind are bound
    for certain; a loop may run no iteration, and the body of a [try]
    may stop anywhere, so what they bind is not. *)
Fixpoint exec (s : stmt) (g : list string) {struct s} : result (list string) :=
  let block :=
    fix block (ss : list stmt) (g : list string) : result (list string) :=
      match ss with
      | [] => Ok g
      | s :: ss =>
          match exec s g with
          | Ok g' => block ss g'
          | Raise e => Raise e
          end
      end in
  let after (reads : list string) (k : result (list string)) :=
    match read reads g with
    | Ok _ => k
    | Raise e => Raise e
    end in
  match s with
  | ImportAs names => Ok (names ++ g)
  | Assign reads binds => after reads (Ok (binds ++ g))
  | AugAssign target reads => after (target :: reads) (Ok (target :: g))
  | SetAttr reads obj _ => after (reads ++ [obj]) (Ok g)
  | SetItem reads obj index => after (reads ++ obj :: index) (Ok g)
  | Expr reads | Return reads | RaiseStmt reads | Assert reads =>
      after reads (Ok g)
  | If reads body orelse =>
      after reads
        match block body g, block orelse g with
        | Ok g1, Ok g2 => Ok (filter (.∈ g2) g1)
        | Raise e, _ | _, Raise e => Raise e
        end
  | For targets reads body =>
      after reads
        match block body (targets ++ g) with
        | Ok _ => Ok g
        | Raise e => Raise e
        end
  | FunctionDef decorators name _ _ => after decorators (Ok (name :: g))
  | ClassDef name bases body =>
      after bases
        match block body g with
        | Ok _ => Ok (name :: g)
        | Raise e => Raise e
        end
  | Try body handlers finalbody =>
      match block body g, block handlers g with
      | Ok _, Ok _ => block finalbody g
      | Raise e, _ | _, Raise e => Raise e
      end
  | With reads binds body => after reads (block body (binds ++ g))
  | Commented _ => Ok g
  end.

(** Running the statements of a cell, and the cells of a guide, one
    after the other; the first exception ends the run. *)
Fixpoint exec_cell (c : Cell) (g : list string) : result (list string) :=
  match c with
  | [] => Ok g
  | s :: c =>
      match exec s g with
      | Ok g' => exec_cell c g'
      | Raise e => Raise e
      end
  end.

Fixpoint run (cells : list Cell) (g : list string) : result (list string) :=
  match cells with
  | [] => Ok g
  | c :: cells =>
      match exec_cell c g with
      | Ok g' => run cells g'
      | Raise e => Raise e
      end
  end.

(** The names that a statement binds in the scope in which it stands. *)
Fixpoint binds_of (s : stmt) : list string :=
  match s with
  | ImportAs names => names
  | Assign _ binds => binds
  | AugAssign target _ => [target]
  | If _ body orelse => flat_map binds_of body ++ flat_map binds_of orelse
  | For targets _ body => targets ++ flat_map binds_of body
  | FunctionDef _ name _ _ => [name]
  | ClassDef name _ _ => [name]
  | Try body handlers finalbody =>
      flat_map binds_of body ++ flat_map binds_of handlers
      ++ flat_map binds_of finalbody
  | With _ binds body => binds ++ flat_map binds_of body
  | SetAttr _ _ _ | SetItem _ _ _ | Expr _ | Return _ | RaiseStmt _
  | Assert _ | Commented _ => []
  end.

(** The names that a statement reads from the scope in which it
    stands.  The body of a function reads from that scope the names
    that are not local to the function: not a parameter, and bound
    nowhere in the body. *)
Fixpoint reads_of (s : stmt) : list string :=
  match s with
  | ImportAs _ | Commented _ => []
  | Assign reads _ | Expr reads | Return reads | RaiseStmt reads
  | Assert reads => reads
  | AugAssign target reads => target :: reads
  | SetAttr reads obj _ => reads ++ [obj]
  | SetItem reads obj index => reads ++ obj :: index
  | If reads body orelse =>
      reads ++ flat_map reads_of body ++ flat_map reads_of orelse
  | For _ reads body => reads ++ flat_map reads_of body
  | FunctionDef decorators _ params body =>
      decorators
      ++ filter (.∉ params ++ flat_map binds_of body) (flat_map reads_of body)
  | ClassDef _ bases body => bases ++ flat_map reads_of body
  | Try body handlers finalbody =>
      flat_map reads_of body ++ flat_map reads_of handlers
      ++ flat_map reads_of finalbody
  | With reads _ body => reads ++ flat_map reads_of body
  end.

(** The names that a cell needs from the session: those that the cell,
    or a function that it defines, reads and that no statement of the
    cell binds, builtins apart. *)
Definition needs (c : Cell) : list string :=
  remove_dups
    (filter (.∉ builtins ++ flat_map binds_of c) (flat_map reads_of c)).



(** The statements that stand directly in the bodies of a statement. *)
Definition children (s : stmt) : list stmt :=
  match s with
  | If _ body orelse => body ++ orelse
  | For _ _ body | FunctionDef _ _ _ body | ClassDef _ _ body
  | With _ _ body => body
  | Try body handlers finalbody => body ++ handlers ++ finalbody
  | Commented s => [s]
  | _ => []
  end.

(** A statement completes with more: when it reads no unbound name
    where the names [g] are bound, it reads none where more names are
    bound, and binds no less.  It keeps bound what was bound. *)
Definition completes_with_more (s : stmt) : Prop :=
  ∀ g h g', g ⊆ h → exec s g = Ok g' → ∃ h', exec s h = Ok h' ∧ g' ⊆ h'.

Definition keeps_bound (s : stmt) : Prop :=
  ∀ g g', exec s g = Ok g' → g ⊆ g'.






(** *** The notebook *)

(** [def compute_loss_and_updates(self, trainable_variables,
    non_trainable_variables, x, y, training=False)], whose second
    statement is [loss = self.compute_loss(x, y, y_pred)] in the first
    class and [loss = self.loss_fn(y, y_pred)] in the second. *)
Definition compute_loss_and_updates_def (loss_reads : list string) : stmt :=
  FunctionDef [] "compute_loss_and_updates"
    ["self"; "trainable_variables"; "non_trainable_variables"; "x"; "y";
     "training"]
    [ Assign ["self"; "trainable_variables"; "non_trainable_variables"; "x";
              "training"]
        ["y_pred"; "non_trainable_variables"];
      Assign loss_reads ["loss"];
      Return ["loss"; "y_pred"; "non_trainable_variables"] ].

(** The statements that both [train_step] methods start with: the
    state and the batch are unpacked, [grad_fn] is made by
    [jax.value_and_grad] and called, and the optimizer is applied. *)
Definition gradient_steps : list stmt :=
  [ Assign ["state"]
      ["trainable_variables"; "non_trainable_variables";
       "optimizer_variables"; "metrics_variables"];
    Assign ["data"] ["x"; "y"];
    Assign ["jax"; "self"] ["grad_fn"];
    Assign ["grad_fn"; "trainable_variables"; "non_trainable_variables";
            "x"; "y"]
      ["loss"; "y_pred"; "non_trainable_variables"; "grads"];
    Assign ["self"; "optimizer_variables"; "grads"; "trainable_variables"]
      ["trainable_variables"; "optimizer_variables"] ].

(** [new_metrics_vars = []] and the loop [for metric in self.metrics:]
    of the first [train_step] and of [test_step]. *)
Definition metric_loop : list stmt :=
  [ Assign [] ["new_metrics_vars"];
    For ["metric"] ["self"]
      [ Assign ["metrics_variables"; "len"; "new_metrics_vars"; "len";
                "new_metrics_vars"; "len"; "metric"]
          ["this_metric_vars"];
        If ["metric"]
          [ Assign ["metric"; "this_metric_vars"; "loss"] ["this_metric_vars"] ]
          [ Assign ["metric"; "this_metric_vars"; "y"; "y_pred"]
              ["this_metric_vars"] ];
        Assign ["metric"; "this_metric_vars"] ["logs"];
        AugAssign "new_metrics_vars" ["this_metric_vars"] ] ].

(** [inputs = keras.Input(shape=(32,))],
    [outputs = keras.layers.Dense(1)(inputs)],
    [model = CustomModel(inputs, outputs)], [model.compile(...)],
    [x = np.random.random(...)], [y = np.random.random(...)] and
    [model.fit(x, y, ...)] or [model.evaluate(x, y)]. *)
Definition try_it_out : list stmt :=
  [ Assign ["keras"] ["inputs"];
    Assign ["keras"; "inputs"] ["outputs"];
    Assign ["CustomModel"; "inputs"; "outputs"] ["model"];
    Expr ["model"];
    Assign ["np"] ["x"];
    Assign ["np"] ["y"];
    Expr ["model"; "x"; "y"] ].

(** The five code cells of the notebook. *)
Definition notebook : list Cell :=
  [ (* Setup *)
    [ ImportAs ["os"];
      SetItem [] "os" [];
      ImportAs ["jax"];
      ImportAs ["keras"];
      ImportAs ["np"] ];
    (* A first simple example *)
    [ ClassDef "CustomModel" ["keras"]
        [ compute_loss_and_updates_def ["self"; "x"; "y"; "y_pred"];
          FunctionDef [] "train_step" ["self"; "state"; "data"]
            (gradient_steps ++ metric_loop ++
             [ Assign ["trainable_variables"; "non_trainable_variables";
                       "optimizer_variables"; "new_metrics_vars"]
                 ["state"];
               Return ["logs"; "state"] ]) ] ];
    (* Let's try this out *)
    try_it_out;
    (* Going lower-level *)
    ClassDef "CustomModel" ["keras"]
      [ FunctionDef [] "__init__" ["self"; "args"; "kwargs"]
          [ Expr ["super"; "args"; "kwargs"];
            SetAttr ["keras"] "self" "loss_tracker";
            SetAttr ["keras"] "self" "mae_metric";
            SetAttr ["keras"] "self" "loss_fn" ];
        compute_loss_and_updates_def ["self"; "y"; "y_pred"];
        FunctionDef [] "train_step" ["self"; "state"; "data"]
          (gradient_steps ++
           [ Assign ["metrics_variables"; "len"; "self"] ["loss_tracker_vars"];
             Assign ["metrics_variables"; "len"; "self"] ["mae_metric_vars"];
             Assign ["self"; "loss_tracker_vars"; "loss"] ["loss_tracker_vars"];
             Assign ["self"; "mae_metric_vars"; "y"; "y_pred"]
               ["mae_metric_vars"];
             Assign [] ["logs"];
             SetItem ["self"; "loss_tracker_vars"] "logs" ["self"];
             SetItem ["self"; "mae_metric_vars"] "logs" ["self"];
             Assign ["loss_tracker_vars"; "mae_metric_vars"]
               ["new_metrics_vars"];
             Assign ["trainable_variables"; "non_trainable_variables";
                     "optimizer_variables"; "new_metrics_vars"]
               ["state"];
             Return ["logs"; "state"] ]);
        FunctionDef ["property"] "metrics" ["self"]
          [ Return ["self"; "self"] ] ]
    :: try_it_out;
    (* Providing your own evaluation step *)
    ClassDef "CustomModel" ["keras"]
      [ FunctionDef [] "test_step" ["self"; "state"; "data"]
          ([ Assign ["data"] ["x"; "y"];
             Assign ["state"]
               ["trainable_variables"; "non_trainable_variables";
                "metrics_variables"];
             Assign ["self"; "trainable_variables"; "non_trainable_variables";
                     "x"]
               ["y_pred"; "non_trainable_variables"];
             Assign ["self"; "x"; "y"; "y_pred"] ["loss"] ]
           ++ metric_loop ++
           [ Assign ["trainable_variables"; "non_trainable_variables";
                     "new_metrics_vars"]
               ["state"];
             Return ["logs"; "state"] ]) ]
    :: try_it_out ].

(** *** The Sequential guide *)

(** [model.add(layers.L(...))] *)
Definition model_add_layer : stmt := Expr ["model"; "layers"].

(** [keras.Sequential([layers.Dense(...), layers.Dense(...),
    layers.Dense(...)])] bound to [model]. *)
Definition model_of_three_layers : stmt :=
  Assign ["keras"; "layers"; "layers"; "layers"] ["model"].

(** [initial_model = keras.Sequential([keras.Input(...), layers.Conv2D(...),
    layers.Conv2D(...), layers.Conv2D(...)])],
    [feature_extractor = keras.Model(inputs=initial_model.inputs,
    outputs=...)] with outputs that are read from [initial_model] (the
    [layer] of the list comprehension is local to it),
    [x = ops.ones(...)], [features = feature_extractor(x)]. *)
Definition feature_extraction : Cell :=
  [ Assign ["keras"; "keras"; "layers"; "layers"; "layers"] ["initial_model"];
    Assign ["keras"; "initial_model"; "initial_model"] ["feature_extractor"];
    Assign ["ops"] ["x"];
    Assign ["feature_extractor"; "x"] ["features"] ].

(** The nineteen code cells of the guide. *)
Definition sequential_guide : list Cell :=
  [ (* Setup *)
    [ ImportAs ["keras"]; ImportAs ["layers"]; ImportAs ["ops"] ];
    (* When to use a Sequential model *)
    [ model_of_three_layers;
      Assign ["ops"] ["x"];
      Assign ["model"; "x"] ["y"] ];
    [ Assign ["layers"] ["layer1"];
      Assign ["layers"] ["layer2"];
      Assign ["layers"] ["layer3"];
      Assign ["ops"] ["x"];
      Assign ["layer3"; "layer2"; "layer1"; "x"] ["y"] ];
    (* Creating a Sequential model *)
    [ model_of_three_layers ];
    [ Expr ["model"] ];
    [ Assign ["keras"] ["model"];
      model_add_layer; model_add_layer; model_add_layer ];
    [ Expr ["model"]; Expr ["print"; "len"; "model"] ];
    [ Assign ["keras"] ["model"];
      model_add_layer; model_add_layer; model_add_layer ];
    (* Specifying the input shape in advance *)
    [ Assign ["layers"] ["layer"]; Expr ["layer"] ];
    [ Assign ["ops"] ["x"]; Assign ["layer"; "x"] ["y"]; Expr ["layer"] ];
    [ model_of_three_layers;
      Commented (Expr ["model"]);
      Commented (Expr ["model"]);
      Assign ["ops"] ["x"];
      Assign ["model"; "x"] ["y"];
      Expr ["print"; "len"; "model"] ];
    [ Expr ["model"] ];
    [ Assign ["keras"] ["model"];
      Expr ["model"; "keras"];
      model_add_layer;
      Expr ["model"] ];
    [ Expr ["model"] ];
    (* A common debugging workflow: add() + summary() *)
    [ Assign ["keras"] ["model"];
      Expr ["model"; "keras"];
      model_add_layer; model_add_layer; model_add_layer;
      Expr ["model"];
      model_add_layer; model_add_layer; model_add_layer;
      model_add_layer; model_add_layer; model_add_layer;
      Expr ["model"];
      model_add_layer;
      model_add_layer ];
    (* Feature extraction with a Sequential model *)
    feature_extraction;
    feature_extraction;
    (* Transfer learning with a Sequential model *)
    [ Assign ["keras"; "keras"; "layers"; "layers"; "layers"; "layers"]
        ["model"];
      Expr ["model"];
      For ["layer"] ["model"] [ SetAttr [] "layer" "trainable" ];
      Expr ["model"];
      Expr ["model"] ];
    [ Assign ["keras"] ["base_model"];
      SetAttr [] "base_model" "trainable";
      Assign ["keras"; "base_model"; "layers"] ["model"];
      Expr ["model"];
      Expr ["model"] ] ].

(** *** Cells in and out of document order *)

(** The name on which a run ends with a [NameError], if it does. *)
Definition name_error {A : Type} (r : result A) : option string :=
  match r with
  | Raise (NameError n) => Some n
  | _ => None
  end.

(** Each cell of a guide run on its own in a fresh session. *)
Definition alone (cells : list Cell) : list (option string) :=
  map (λ c, name_error (exec_cell c [])) cells.

(** Each cell after the first run in the session that the first cell
    ("Setup") has left. *)
Definition after_setup (cells : list Cell) : list (option string) :=
  match cells with
  | [] => []
  | setup :: cells =>
      match exec_cell setup [] with
      | Ok g => map (λ c, name_error (exec_cell c g)) cells
      | Raise _ => []
      end
  end.

(** The names that are bound when the cells before cell [n] have run
    in document order. *)
Definition bound_before (cells : list Cell) (n : nat) : result (list string) :=
  run (take n cells) [].

End Outline.

(** * Properties *)

(** ** The metric loop *)

Section MetricLoopFacts.
Context `{Backend}.
Implicit Types (ms : list Metric) (mv acc : list Array) (lg : option Logs).

Lemma slice_length {A : Type} (l : list A) (start n : nat) :
  start + n ≤ length l → length (slice l start (start + n)) = n.
Proof.
  intros Hle. unfold slice.
  rewrite length_take, length_drop. lia.
Qed.

Lemma metric_step_eq mv loss y y_pred acc lg metric :
  metric_step mv loss y y_pred (acc, lg) metric =
  let this :=
    updated metric
      (slice mv (length acc) (length acc + length (metric_variables metric)))
      loss y y_pred in
  (acc ++ this, Some (stateless_result metric this)).
Proof.
  unfold metric_step, updated. by destruct (String.eqb _ _).
Qed.

(** The variables that the loop collects: the chunks of
    [updated_vars], one after the other, behind what it started with. *)
Lemma loop_vars ms mv loss y y_pred acc lg :
  (foldl (metric_step mv loss y y_pred) (acc, lg) ms).1 =
  acc ++ concat (updated_vars ms mv loss y y_pred (length acc)).
Proof.
  revert acc lg. induction ms as [|metric ms IH]; intros acc lg.
  - simpl. by rewrite app_nil_r.
  - cbn [foldl]. rewrite metric_step_eq. cbv zeta.
    rewrite IH, length_app. cbn [updated_vars concat]. by rewrite app_assoc.
Qed.

(** The [logs] that the loop ends with: the result of the last metric
    on its own updated variables. *)
Lemma loop_logs ms mv loss y y_pred acc lg last_metric :
  last ms = Some last_metric →
  ∃ vars,
    last (updated_vars ms mv loss y y_pred (length acc)) = Some vars ∧
    (foldl (metric_step mv loss y y_pred) (acc, lg) ms).2 =
    Some (stateless_result last_metric vars).
Proof.
  revert acc lg. induction ms as [|metric ms IH]; intros acc lg Hlast.
  - discriminate.
  - cbn [foldl]. rewrite metric_step_eq. cbv zeta.
    destruct ms as [|metric' ms'].
    + injection Hlast as ->. eexists. split; reflexivity.
    + destruct (IH (acc ++ updated metric
                      (slice mv (length acc)
                         (length acc + length (metric_variables metric)))
                      loss y y_pred)
                   (Some (stateless_result metric
                      (updated metric
                         (slice mv (length acc)
                            (length acc + length (metric_variables metric)))
                         loss y y_pred))) Hlast) as (vars & Hv & Hl).
      exists vars. split; [|exact Hl].
      rewrite length_app in Hv. exact Hv.
Qed.

(** When every update keeps the number of variables it is given and
    [metrics_variables] has room for every metric from [offset] on, each
    chunk is as long as the [variables] of its metric. *)
Lemma updated_vars_length ms mv loss y y_pred offset :
  (∀ metric vars args, metric ∈ ms →
     length (stateless_update_state metric vars args) = length vars) →
  offset + count_variables ms ≤ length mv →
  length (concat (updated_vars ms mv loss y y_pred offset)) =
  count_variables ms.
Proof.
  revert offset. induction ms as [|metric ms IH]; intros offset Hkeep Hroom.
  - reflexivity.
  - unfold count_variables in *. cbn [foldr] in Hroom |- *.
    cbn [updated_vars concat]. rewrite length_app.
    assert (length (updated metric
                      (slice mv offset (offset + length (metric_variables metric)))
                      loss y y_pred)
            = length (metric_variables metric)) as Hthis.
    { unfold updated. destruct (String.eqb _ _);
        (rewrite Hkeep by apply list_elem_of_here);
        apply slice_length; lia. }
    rewrite Hthis, IH.
    + reflexivity.
    + intros m vars args Hin. apply Hkeep. by apply list_elem_of_further.
    + lia.
Qed.

(** [train_step] of the first example, statement by statement. *)
Lemma simple_train_step_eq (self : Model) tv ntv ov mv x y :
  SimpleExample.train_step (tv, ntv, ov, mv) (x, y) self =
  (let '((loss, (y_pred, ntv')), grads) :=
     SimpleExample.grad_fn self tv ntv x y true in
   let '(tv', ov') := stateless_apply (optimizer self) ov grads tv in
   let loop := update_metrics (metrics self) mv loss y y_pred in
   return_logs loop.2 (tv', ntv', ov', loop.1),
   self).
Proof.
  unfold SimpleExample.train_step, mbind, M_bind, mret, M_ret, getattr.
  destruct (SimpleExample.grad_fn self tv ntv x y true)
    as [[loss [y_pred ntv']] grads].
  destruct (stateless_apply (optimizer self) ov grads tv) as [tv' ov'].
  by destruct (update_metrics (metrics self) mv loss y y_pred).
Qed.

(** [test_step], statement by statement. *)
Lemma test_step_eq (self : Model) tv ntv mv x y :
  Evaluation.test_step (tv, ntv, mv) (x, y) self =
  (let '(y_pred, ntv') := stateless_call self tv ntv x false in
   let loss := compute_loss self x y y_pred in
   let loop := update_metrics (metrics self) mv loss y y_pred in
   return_logs loop.2 (tv, ntv', loop.1),
   self).
Proof.
  unfold Evaluation.test_step, mbind, M_bind, mret, M_ret, getattr.
  destruct (stateless_call self tv ntv x false) as [y_pred ntv'].
  by destruct (update_metrics (metrics self) mv _ y y_pred).
Qed.

(** [train_step] of the lower-level example, statement by statement. *)
Lemma lower_train_step_eq (self : LowerLevel.CustomModel) tv ntv ov mv x y :
  LowerLevel.train_step (tv, ntv, ov, mv) (x, y) self =
  (let '((loss, (y_pred, ntv')), grads) :=
     LowerLevel.grad_fn self tv ntv x y true in
   let '(tv', ov') :=
     stateless_apply (optimizer (LowerLevel.super self)) ov grads tv in
   let n := length (metric_variables (LowerLevel.loss_tracker self)) in
   let loss_tracker_vars :=
     stateless_update_state (LowerLevel.loss_tracker self) (take n mv) [loss] in
   let mae_metric_vars :=
     stateless_update_state (LowerLevel.mae_metric self) (drop n mv)
       [y; y_pred] in
   (<[metric_name (LowerLevel.mae_metric self) :=
        stateless_result (LowerLevel.mae_metric self) mae_metric_vars]>
      (<[metric_name (LowerLevel.loss_tracker self) :=
           stateless_result (LowerLevel.loss_tracker self) loss_tracker_vars]>
         ∅),
    (tv', ntv', ov', loss_tracker_vars ++ mae_metric_vars)),
   self).
Proof.
  unfold LowerLevel.train_step, mbind, M_bind, mret, M_ret, getattr.
  destruct (LowerLevel.grad_fn self tv ntv x y true)
    as [[loss [y_pred ntv']] grads].
  by destruct (stateless_apply (optimizer (LowerLevel.super self)) ov grads tv).
Qed.

End MetricLoopFacts.

(** ** The notebook: [CustomModel] *)

Section Notebook.
Context `{Backend}.

Lemma update_metrics_logs (ms : list Metric) mv loss y y_pred :
  ms ≠ [] → is_Some (update_metrics ms mv loss y y_pred).2.
Proof.
  intros Hne. apply last_is_Some in Hne as [m Hm].
  destruct (loop_logs ms mv loss y y_pred [] None m Hm) as (vars & _ & Hl).
  unfold update_metrics. rewrite Hl. by eexists.
Qed.

(** A method body can change the object it runs on. *)
Example setattr_changes_the_object :
  (setattr (λ n : nat, n + 1)%nat 0%nat).2 = 1%nat.
Proof. reflexivity. Qed.


(** C4, as amended.  The notebook defines classes of its own: the
    lower-level [CustomModel] has an [__init__] that creates a [Mean]
    metric named [loss], a [MeanAbsoluteError] metric named [mae] and a
    [MeanSquaredError] loss, a [metrics] property that lists the two
    metrics in this order, and a [train_step] whose logs hold exactly
    the results of these two metrics under their names and whose new
    metric variables are the updated variables of the loss tracker
    followed by those of the other metric.  This behaviour is fixed for
    every implementation of the framework operations that the methods
    call (of which only the metric names are assumed). *)
Theorem lower_level_model_behaviour
    (keras : LowerLevel.KerasClasses) (base : Model)
    (tv ntv ov mv : list Array) (x y : Array) :
  metric_name (LowerLevel.Mean keras "loss") = "loss" →
  metric_name (LowerLevel.MeanAbsoluteError keras "mae") = "mae" →
  let self := LowerLevel.__init__ keras base in
  let loss_tracker := LowerLevel.Mean keras "loss" in
  let mae_metric := LowerLevel.MeanAbsoluteError keras "mae" in
  LowerLevel.metrics self = ([loss_tracker; mae_metric], self) ∧
  ∃ logs tv' ntv' ov' loss y_pred,
    LowerLevel.train_step (tv, ntv, ov, mv) (x, y) self
    = ((logs,
        (tv', ntv', ov',
         stateless_update_state loss_tracker
           (take (length (metric_variables loss_tracker)) mv) [loss]
         ++ stateless_update_state mae_metric
              (drop (length (metric_variables loss_tracker)) mv) [y; y_pred])),
       self) ∧
    dom logs = {["loss"; "mae"]} ∧
    logs !! "loss"
    = Some (stateless_result loss_tracker
              (stateless_update_state loss_tracker
                 (take (length (metric_variables loss_tracker)) mv) [loss])) ∧
    logs !! "mae"
    = Some (stateless_result mae_metric
              (stateless_update_state mae_metric
                 (drop (length (metric_variables loss_tracker)) mv)
                 [y; y_pred])).
Proof.
  intros Hloss Hmae self loss_tracker mae_metric. split; [reflexivity|].
  pose proof (lower_train_step_eq self tv ntv ov mv x y) as Heq.
  destruct (LowerLevel.grad_fn self tv ntv x y true)
    as [[loss [y_pred ntv']] grads].
  destruct (stateless_apply (optimizer (LowerLevel.super self)) ov grads tv)
    as [tv' ov'].
  cbv zeta in Heq. cbn [LowerLevel.loss_tracker LowerLevel.mae_metric self
    LowerLevel.__init__] in Heq.
  eexists _, tv', ntv', ov', loss, y_pred. split; [exact Heq|].
  rewrite Hloss, Hmae. split; [|split].
  - rewrite !dom_insert_L, dom_empty_L. set_solver.
  - rewrite lookup_insert_ne by done. by rewrite lookup_insert_eq.
  - by rewrite lookup_insert_eq.
Qed.

(** C8. In both training steps the gradients are the second component
    of what [jax.value_and_grad], applied to [compute_loss_and_updates],
    returns at the given variables and batch with [training=True], and
    the new trainable and optimizer variables are the pair that
    [self.optimizer.stateless_apply] returns for the incoming optimizer
    variables, these gradients and the incoming trainable variables;
    [test_step] returns the trainable variables it was given. *)
Theorem updates_only_through_the_framework
    (self : Model) (low : LowerLevel.CustomModel)
    (tv ntv ov mv : list Array) (x y : Array) :
  metrics self ≠ [] →
  let grads :=
    (value_and_grad
       (λ tv ntv x y training,
          (SimpleExample.compute_loss_and_updates tv ntv x y training self).1)
       tv ntv x y true).2 in
  let grads_low :=
    (value_and_grad
       (λ tv ntv x y training,
          (LowerLevel.compute_loss_and_updates tv ntv x y training low).1)
       tv ntv x y true).2 in
  (∃ logs ntv' mv',
     (SimpleExample.train_step (tv, ntv, ov, mv) (x, y) self).1
     = Ok (logs,
           ((stateless_apply (optimizer self) ov grads tv).1, ntv',
            (stateless_apply (optimizer self) ov grads tv).2, mv'))) ∧
  (∃ logs ntv' mv',
     (LowerLevel.train_step (tv, ntv, ov, mv) (x, y) low).1
     = (logs,
        ((stateless_apply (optimizer (LowerLevel.super low)) ov grads_low tv).1,
         ntv',
         (stateless_apply (optimizer (LowerLevel.super low)) ov grads_low tv).2,
         mv'))) ∧
  (∃ logs ntv' mv',
     (Evaluation.test_step (tv, ntv, mv) (x, y) self).1
     = Ok (logs, (tv, ntv', mv'))).
Proof.
  intros Hms grads grads_low. subst grads grads_low. split; [|split].
  - rewrite simple_train_step_eq. cbn [fst].
    unfold SimpleExample.grad_fn, bound_method.
    match goal with
    | |- context [value_and_grad ?f tv ntv x y true] =>
        destruct (value_and_grad f tv ntv x y true)
          as [[loss [y_pred ntv']] g]
    end.
    cbn [snd]. destruct (stateless_apply (optimizer self) ov g tv) as [tv' ov'].
    destruct (update_metrics_logs (metrics self) mv loss y y_pred Hms)
      as [logs Hlogs].
    cbv zeta. rewrite Hlogs. by eexists _, _, _.
  - rewrite lower_train_step_eq. cbn [fst].
    unfold LowerLevel.grad_fn, bound_method.
    match goal with
    | |- context [value_and_grad ?f tv ntv x y true] =>
        destruct (value_and_grad f tv ntv x y true)
          as [[loss [y_pred ntv']] g]
    end.
    cbn [snd].
    destruct (stateless_apply (optimizer (LowerLevel.super low)) ov g tv).
    by eexists _, _, _.
  - rewrite test_step_eq. cbn [fst].
    destruct (stateless_call self tv ntv x false) as [y_pred ntv'].
    destruct (update_metrics_logs (metrics self) mv
                (compute_loss self x y y_pred) y y_pred Hms) as [logs Hlogs].
    cbv zeta. rewrite Hlogs. by eexists _, _, _.
Qed.

(** C10, as amended.  In the first [train_step] and in [test_step],
    when [self.metrics] has a last metric, the returned logs are
    [stateless_result] of that last metric on its own updated variables
    and of no other metric, and [new_metrics_vars] is the updated
    variables of each metric one after the other, in the order of the
    metrics.  Its length is the length of the incoming
    [metrics_variables] when every [stateless_update_state] returns as
    many variables as it is given and [metrics_variables] has as many
    entries as the metrics have variables together. *)
Theorem logs_come_from_the_last_metric
    (self : Model) (last_metric : Metric)
    (tv ntv ov mv : list Array) (x y : Array) :
  last (metrics self) = Some last_metric →
  (∃ tv' ntv' ov' loss y_pred vars,
     last (updated_vars (metrics self) mv loss y y_pred 0) = Some vars ∧
     (SimpleExample.train_step (tv, ntv, ov, mv) (x, y) self).1
     = Ok (stateless_result last_metric vars,
           (tv', ntv', ov',
            concat (updated_vars (metrics self) mv loss y y_pred 0))) ∧
     ((∀ metric vars args, metric ∈ metrics self →
         length (stateless_update_state metric vars args) = length vars) →
      length mv = count_variables (metrics self) →
      length (concat (updated_vars (metrics self) mv loss y y_pred 0))
      = length mv)) ∧
  (∃ ntv' loss y_pred vars,
     last (updated_vars (metrics self) mv loss y y_pred 0) = Some vars ∧
     (Evaluation.test_step (tv, ntv, mv) (x, y) self).1
     = Ok (stateless_result last_metric vars,
           (tv, ntv',
            concat (updated_vars (metrics self) mv loss y y_pred 0))) ∧
     ((∀ metric vars args, metric ∈ metrics self →
         length (stateless_update_state metric vars args) = length vars) →
      length mv = count_variables (metrics self) →
      length (concat (updated_vars (metrics self) mv loss y y_pred 0))
      = length mv)).
Proof.
  intros Hlast. split.
  - rewrite simple_train_step_eq. cbn [fst].
    destruct (SimpleExample.grad_fn self tv ntv x y true)
      as [[loss [y_pred ntv']] grads].
    destruct (stateless_apply (optimizer self) ov grads tv) as [tv' ov'].
    destruct (loop_logs (metrics self) mv loss y y_pred [] None _ Hlast)
      as (vars & Hvars & Hlogs).
    exists tv', ntv', ov', loss, y_pred, vars. split; [exact Hvars|]. split.
    + cbv zeta. unfold update_metrics. by rewrite Hlogs, loop_vars.
    + intros Hkeep Hlen. rewrite Hlen.
      apply updated_vars_length; [exact Hkeep | lia].
  - rewrite test_step_eq. cbn [fst].
    destruct (stateless_call self tv ntv x false) as [y_pred ntv'].
    destruct (loop_logs (metrics self) mv (compute_loss self x y y_pred)
                y y_pred [] None _ Hlast) as (vars & Hvars & Hlogs).
    exists ntv', (compute_loss self x y y_pred), y_pred, vars.
    split; [exact Hvars|]. split.
    + cbv zeta. unfold update_metrics. by rewrite Hlogs, loop_vars.
    + intros Hkeep Hlen. rewrite Hlen.
      apply updated_vars_length; [exact Hkeep | lia].
Qed.

(** X1. When [self.metrics] is empty, the loop of the first
    [train_step] and of [test_step] binds nothing, and the [return] of
    either method raises [UnboundLocalError] for [logs]. *)
Theorem empty_metrics_leave_logs_unbound
    (self : Model) (tv ntv ov mv : list Array) (x y : Array) :
  metrics self = [] →
  (SimpleExample.train_step (tv, ntv, ov, mv) (x, y) self).1
  = Raise (UnboundLocalError "logs") ∧
  (Evaluation.test_step (tv, ntv, mv) (x, y) self).1
  = Raise (UnboundLocalError "logs").
Proof.
  intros Hms. split.
  - rewrite simple_train_step_eq. cbn [fst]. rewrite Hms.
    destruct (SimpleExample.grad_fn self tv ntv x y true)
      as [[loss [y_pred ntv']] grads].
    by destruct (stateless_apply (optimizer self) ov grads tv).
  - rewrite test_step_eq. cbn [fst]. rewrite Hms.
    by destruct (stateless_call self tv ntv x false).
Qed.

(** X2. The lower-level [train_step] splits [metrics_variables] in two
    at the number of variables of the loss tracker: when both metrics
    return as many variables as they are given, [new_metrics_vars] is
    as long as the incoming [metrics_variables], whatever its length. *)
Theorem lower_level_keeps_the_number_of_metric_variables
    (low : LowerLevel.CustomModel) (tv ntv ov mv : list Array) (x y : Array) :
  (∀ vars args,
     length (stateless_update_state (LowerLevel.loss_tracker low) vars args)
     = length vars) →
  (∀ vars args,
     length (stateless_update_state (LowerLevel.mae_metric low) vars args)
     = length vars) →
  length (LowerLevel.train_step (tv, ntv, ov, mv) (x, y) low).1.2.2
  = length mv.
Proof.
  intros Hloss Hmae. rewrite lower_train_step_eq. cbn [fst].
  destruct (LowerLevel.grad_fn low tv ntv x y true)
    as [[loss [y_pred ntv']] grads].
  destruct (stateless_apply (optimizer (LowerLevel.super low)) ov grads tv).
  cbn [snd]. rewrite length_app, Hloss, Hmae, length_take, length_drop. lia.
Qed.

End Notebook.

(** ** The notebook on the toy framework *)

(** C4 as first stated fails: the methods that the notebook defines
    have behaviour of their own, which can be run without the external
    framework.  On the toy framework, where the metric named [mae] is the
    last of two, the first [train_step] and [test_step] return its
    result alone as logs; without metrics, [logs] is unbound at the
    [return]; the lower-level [train_step] splits the metric variables
    after the two variables of its loss tracker. *)
Lemma notebook_methods_have_behaviour_of_their_own :
  (SimpleExample.train_step Toy.train_state Toy.batch
     (Toy.model Toy.two_metrics)).1
  = Ok (70, ([0; 1], [5], [1], [14; 30; 40]))%Z ∧
  (Evaluation.test_step Toy.test_state Toy.batch
     (Toy.model Toy.two_metrics)).1
  = Ok (70, ([1; 2], [5], [14; 30; 40]))%Z ∧
  (SimpleExample.train_step Toy.train_state Toy.batch (Toy.model [])).1
  = Raise (UnboundLocalError "logs") ∧
  (LowerLevel.train_step Toy.train_state Toy.batch
     (LowerLevel.__init__ Toy.keras (Toy.model []))).1.2
  = ([0; 1], [5], [1], [14; 24; 40])%Z.
Proof.
  repeat split; vm_compute; reflexivity.
Qed.

Lemma lower_level_model_behaviour_witness :
  metric_name (LowerLevel.Mean Toy.keras "loss") = "loss" ∧
  metric_name (LowerLevel.MeanAbsoluteError Toy.keras "mae") = "mae" ∧
  ∃ logs state,
    LowerLevel.train_step Toy.train_state Toy.batch
      (LowerLevel.__init__ Toy.keras (Toy.model []))
    = ((logs, state), LowerLevel.__init__ Toy.keras (Toy.model [])) ∧
    dom logs = {["loss"; "mae"]}.
Proof.
  split; [reflexivity|]. split; [reflexivity|].
  destruct (lower_level_model_behaviour Toy.keras (Toy.model [])
              [1; 2]%Z [5]%Z [0]%Z [10; 20; 30]%Z 3%Z 4%Z eq_refl eq_refl)
    as (_ & logs & tv' & ntv' & ov' & loss & y_pred & Hstep & Hdom & _).
  eexists logs, _. split; [exact Hstep | exact Hdom].
Defined.

Lemma updates_only_through_the_framework_witness :
  metrics (Toy.model Toy.two_metrics) ≠ [] ∧
  ∃ logs ntv' mv',
    (SimpleExample.train_step Toy.train_state Toy.batch
       (Toy.model Toy.two_metrics)).1
    = Ok (logs, ([0; 1]%Z, ntv', [1]%Z, mv')).
Proof.
  assert (metrics (Toy.model Toy.two_metrics) ≠ []) as Hms by done.
  split; [exact Hms|].
  destruct (updates_only_through_the_framework
              (Toy.model Toy.two_metrics)
              (LowerLevel.__init__ Toy.keras (Toy.model []))
              [1; 2]%Z [5]%Z [0]%Z [10; 20; 30]%Z 3%Z 4%Z Hms)
    as ((logs & ntv' & mv' & Hstep) & _).
  exists logs, ntv', mv'. exact Hstep.
Defined.

(** C10 as first stated fails: with one metric that holds one variable
    and an incoming [metrics_variables] of two entries, the loop takes
    the slice [[0:1]] only, and [new_metrics_vars] has one entry. *)
Lemma new_metrics_vars_can_be_shorter :
  (SimpleExample.train_step (H := Toy.backend)
     ([1; 2], [5], [0], [10; 20])%Z Toy.batch
     (Toy.model [Toy.metric "mae" 1])).1
  = Ok (20, ([0; 1], [5], [1], [20]))%Z ∧
  (Evaluation.test_step (H := Toy.backend)
     ([1; 2], [5], [10; 20])%Z Toy.batch
     (Toy.model [Toy.metric "mae" 1])).1
  = Ok (20, ([1; 2], [5], [20]))%Z ∧
  length [20%Z] = 1 ∧ length [10%Z; 20%Z] = 2.
Proof.
  repeat split; vm_compute; reflexivity.
Qed.

Lemma logs_come_from_the_last_metric_witness :
  last (metrics (Toy.model Toy.two_metrics)) = Some (Toy.metric "mae" 2) ∧
  ∃ vars tv' ntv' ov' mv',
    (SimpleExample.train_step Toy.train_state Toy.batch
       (Toy.model Toy.two_metrics)).1
    = Ok (stateless_result (Toy.metric "mae" 2) vars, (tv', ntv', ov', mv')) ∧
    length mv' = length [10; 20; 30]%Z.
Proof.
  split; [reflexivity|].
  destruct (logs_come_from_the_last_metric
              (Toy.model Toy.two_metrics) (Toy.metric "mae" 2)
              [1; 2]%Z [5]%Z [0]%Z [10; 20; 30]%Z 3%Z 4%Z eq_refl)
    as ((tv' & ntv' & ov' & loss & y_pred & vars & _ & Hstep & Hlen) & _).
  exists vars, tv', ntv', ov'. eexists. split; [exact Hstep|].
  apply Hlen; [|reflexivity].
  intros metric vs args Hin. cbn [metrics Toy.model] in Hin.
  unfold Toy.two_metrics in Hin.
  apply elem_of_cons in Hin as [->|Hin]; [apply length_map|].
  apply elem_of_cons in Hin as [->|Hin]; [apply length_map|].
  by apply elem_of_nil in Hin.
Defined.

Lemma empty_metrics_leave_logs_unbound_witness :
  metrics (Toy.model []) = [] ∧
  (SimpleExample.train_step Toy.train_state Toy.batch (Toy.model [])).1
  = Raise (UnboundLocalError "logs").
Proof.
  split; [reflexivity|].
  exact (proj1 (empty_metrics_leave_logs_unbound (Toy.model [])
                  [1; 2]%Z [5]%Z [0]%Z [10; 20; 30]%Z 3%Z 4%Z eq_refl)).
Defined.

Lemma lower_level_keeps_the_number_of_metric_variables_witness :
  length (LowerLevel.train_step Toy.train_state Toy.batch
            (LowerLevel.__init__ Toy.keras (Toy.model []))).1.2.2
  = length [10; 20; 30]%Z.
Proof.
  apply (lower_level_keeps_the_number_of_metric_variables
           (LowerLevel.__init__ Toy.keras (Toy.model []))
           [1; 2]%Z [5]%Z [0]%Z [10; 20; 30]%Z 3%Z 4%Z);
    intros vars args; apply length_map.
Defined.

(** ** The Sequential model on tensor values *)

Section SequentialCallFacts.
Import SequentialCall.
Context {R : Type} (plus times : R → R → R) (relu : R → R).

Lemma layers_foldl_add (model : Sequential (R := R)) (ls : list Layer) :
  layers (foldl add model ls) = layers model ++ ls.
Proof.
  revert model. induction ls as [|l ls IH]; intros model.
  - cbn. by rewrite app_nil_r.
  - cbn [foldl]. rewrite IH. cbn [add layers]. by rewrite <- app_assoc.
Qed.

Lemma layers_new (ls : list (Layer (R := R))) : layers (new ls) = ls.
Proof. unfold new. by rewrite layers_foldl_add. Qed.

Lemma loop_is_composition (ls : list (Layer (R := R))) (x : Tensor) :
  foldl (λ inputs (l : Layer), l inputs) x ls = compose ls x.
Proof.
  revert x. induction ls as [|l ls IH]; intros x; [reflexivity|].
  cbn [foldl compose]. by rewrite IH.
Qed.

(** C2. Called on any input tensor [x] (so on every [x] of shape
    [(3, 3)]), the Sequential model made of three Dense layers gives
    [layer3(layer2(layer1(x)))] for the same three layers with the same
    weights; and a Sequential model made of any list of layers with one
    input and one output gives the composition of these layers from
    left to right. *)
Theorem sequential_is_composition :
  (∀ (d1 d2 d3 : DenseLayer) (x : Tensor),
     let layer1 := dense plus times relu d1 in
     let layer2 := dense plus times relu d2 in
     let layer3 := dense plus times relu d3 in
     call (new [layer1; layer2; layer3]) x = layer3 (layer2 (layer1 x))) ∧
  (∀ (ls : list (Layer (R := R))) (x : Tensor),
     call (new ls) x = compose ls x).
Proof.
  assert (∀ (ls : list (Layer (R := R))) (x : Tensor),
            call (new ls) x = compose ls x) as Hgeneral.
  { intros ls x. unfold call. rewrite layers_new. apply loop_is_composition. }
  split; [|exact Hgeneral].
  intros d1 d2 d3 x layer1 layer2 layer3. by rewrite Hgeneral.
Qed.

End SequentialCallFacts.

(** The two cells of "When to use a Sequential model" on
    [ops.ones((3, 3))] with the weights of [SequentialCall.layer1],
    [layer2], [layer3]. *)
Example schematic_cells_agree :
  SequentialCall.call
    (SequentialCall.new
       [SequentialCall.dense Z.add Z.mul SequentialCall.relu_Z SequentialCall.layer1;
        SequentialCall.dense Z.add Z.mul SequentialCall.relu_Z SequentialCall.layer2;
        SequentialCall.dense Z.add Z.mul SequentialCall.relu_Z SequentialCall.layer3])
    SequentialCall.ones_3_3
  = replicate 3 [2; 4; 6; 13]%Z.
Proof. vm_compute. reflexivity. Qed.

(** ** The Sequential guide: cells in and out of document order *)

Section GuideCells.
Import SequentialGuide.

(** C5 as first stated fails: the cell [model.pop();
    print(len(model.layers))] prints 2 in document order, where [model]
    is the three-layer model of the cell before it, and ends with a
    [NameError] on [model] when it is run on its own, in a fresh
    session or after "Setup"; so does the first [model.summary()]
    cell. *)
Lemma pop_cell_reads_the_model_of_the_previous_cell :
  in_document_order 6 = Ok [PrintInt 2] ∧
  in_isolation 6 = Raise (NameError "model") ∧
  after_setup_only 6 = Raise (NameError "model") ∧
  in_document_order 11 = Ok [ShowSummary displayed_dense_summary] ∧
  in_isolation 11 = Raise (NameError "model") ∧
  after_setup_only 11 = Raise (NameError "model").
Proof.
  repeat split; vm_compute; reflexivity.
Qed.

End GuideCells.

(** ** The Sequential guide: built and unbuilt models *)

Section GuideModels.
Import SequentialGuide.
Local Open Scope N_scope.

Lemma foldl_add_layers (model : Sequential) (ls : list Layer) :
  foldl add model (Lyr <$> ls)
  = {| name := name model; layers := layers model ++ ls;
       input_shape := input_shape model |}.
Proof.
  revert model. induction ls as [|l ls IH]; intros model.
  - cbn. rewrite app_nil_r. by destruct model.
  - cbn [fmap list_fmap foldl]. rewrite IH. cbn. by rewrite <- app_assoc.
Qed.

(** A model made from layers alone has these layers and no input shape. *)
Lemma new_layers_only (ls : list Layer) (nm : option string) :
  new (Lyr <$> ls) nm
  = {| name := nm; layers := ls; input_shape := None |}.
Proof. unfold new. by rewrite foldl_add_layers. Qed.

Lemma propagate_length (ls : list Layer) (dims : list N) fed out :
  propagate ls dims = Ok (fed, out) → length fed = length ls.
Proof.
  revert dims fed out. induction ls as [|l ls IH]; intros dims fed out Hp.
  - cbn in Hp. by injection Hp as <- <-.
  - cbn [propagate] in Hp.
    destruct (compute_output_shape l dims) as [o|]; [|discriminate].
    destruct (propagate ls o) as [[fed' out']|] eqn:Hp'; [|discriminate].
    injection Hp as <- <-. cbn. f_equal. by eapply IH.
Qed.

End GuideModels.

(** ** The Sequential guide: the numbers of the summaries *)

Section GuideSummaries.
Import SequentialGuide.
Local Open Scope N_scope.

Lemma dense_params (n units : N) (act : Activation) :
  count_params (Dense units act) [n] = n * units + units.
Proof.
  unfold count_params. cbn [weight_shapes foldr last default].
  by rewrite !N.mul_1_r, N.add_0_r.
Qed.

Lemma conv2d_params (filters k s h w c : N) (act : Activation) :
  count_params (Conv2D filters k s act) [h; w; c]
  = k * k * c * filters + filters.
Proof.
  unfold count_params. cbn [weight_shapes foldr].
  rewrite !N.mul_1_r, N.add_0_r, !N.mul_assoc. reflexivity.
Qed.

Lemma dense_row (n units : N) (act : Activation) (batch : option N) :
  summary {| name := None; layers := [Dense units act];
             input_shape := Some (batch, [n]) |}
  = Ok (table [row "Dense" batch [units] (n * units + units)]
          (n * units + units)).
Proof.
  unfold summary, table, row. cbn [input_shape layers propagate].
  cbn [compute_output_shape length Nat.sub take app map layer_type foldr
       row_params].
  rewrite dense_params. by rewrite N.add_0_r.
Qed.

(** A window that fits: the size over the integers is the one
    computed with the truncated subtraction of the naturals. *)
Lemma conv_output_size_fits (n k s : N) :
  k ≤ n → conv_output_size n k s = Z.of_N ((n - k) / s + 1).
Proof.
  intros Hk. unfold conv_output_size.
  by rewrite N2Z.inj_add, N2Z.inj_div, N2Z.inj_sub.
Qed.

(** C9. The parameter counts and output shapes of the guide's
    summaries follow the standard formulas: a Dense layer with [n]
    inputs and [m] units has [n * m + m] parameters; a Conv2D layer
    with a [k] by [k] kernel, [c] input channels and [f] filters has
    [k * k * c * f + f]; a MaxPooling2D layer has none; a Conv2D
    window of size [k] and stride [s] leaves [floor((n - k) / s) + 1]
    positions of [n], and MaxPooling2D of size [p] leaves
    [floor(n / p)].  Computed with these formulas, the summaries of the
    cells are the tables that the guide displays: 10, 9, 16 and the
    total 35 for the Dense stack; 2,432 and 9,248 with the totals
    11,680 and 48,672 for the convolution stack, whose shape after the
    first pooling layer is (40, 40, 32). *)
Theorem summaries_follow_the_formulas
    (n m filters k s h w c p : N) (act : Activation) (batch : option N) :
  0 < s → k ≤ h → k ≤ w → 0 < p → p ≤ h → p ≤ w →
  count_params (Dense m act) [n] = n * m + m ∧
  count_params (Conv2D filters k s act) [h; w; c]
  = k * k * c * filters + filters ∧
  count_params (MaxPooling2D p) [h; w; c] = 0 ∧
  compute_output_shape (Conv2D filters k s act) [h; w; c]
  = Ok [(h - k) / s + 1; (w - k) / s + 1; filters] ∧
  compute_output_shape (MaxPooling2D p) [h; w; c] = Ok [h / p; w / p; c] ∧
  summary {| name := None; layers := [Dense m act];
             input_shape := Some (batch, [n]) |}
  = Ok (table [row "Dense" batch [m] (n * m + m)] (n * m + m)) ∧
  in_document_order 11 = Ok [ShowSummary displayed_dense_summary] ∧
  in_document_order 12 = Ok [ShowSummary displayed_input_first_summary] ∧
  in_document_order 14
  = Ok [ShowSummary displayed_conv_summary_1;
        ShowSummary displayed_conv_summary_2].
Proof.
  intros Hs Hkh Hkw Hp Hph Hpw.
  split; [apply dense_params|]. split; [apply conv2d_params|].
  split; [reflexivity|]. split; [|split; [|split; [apply dense_row|]]].
  - unfold compute_output_shape, conv_output_length.
    rewrite !conv_output_size_fits by done.
    rewrite bool_decide_true
      by (split; [exact Hs | split; apply N2Z.is_nonneg]).
    by rewrite !N2Z.id.
  - unfold compute_output_shape, pool_output_length.
    by rewrite bool_decide_true.
  - repeat split; vm_compute; reflexivity.
Qed.

Lemma summaries_follow_the_formulas_witness :
  (0 < 2 ∧ 5 ≤ 250 ∧ 0 < 3 ∧ 3 ≤ 250) ∧
  count_params (Dense 2 relu) [4] = 10 ∧
  count_params (Conv2D 32 5 2 relu) [250; 250; 3] = 2432 ∧
  compute_output_shape (Conv2D 32 5 2 relu) [250; 250; 3]
  = Ok [123; 123; 32] ∧
  compute_output_shape (MaxPooling2D 3) [250; 250; 3] = Ok [83; 83; 3].
Proof.
  assert (0 < 2) as Hs by lia. assert (5 ≤ 250) as Hk by lia.
  assert (0 < 3) as Hp by lia. assert (3 ≤ 250) as Hph by lia.
  split; [by repeat split|].
  destruct (summaries_follow_the_formulas
              4 2 32 5 2 250 250 3 3 relu None Hs Hk Hk Hp Hph Hph)
    as (Hdense & Hconv & _ & Hshape & Hpool & _).
  split; [exact Hdense|]. split; [exact Hconv|].
  split; [exact Hshape | exact Hpool].
Defined.

End GuideSummaries.

(** ** The notebook: how the metric loop distributes [metrics_variables] *)

Section MetricSlices.
Context `{Backend}.
Implicit Types (ms : list Metric) (mv : list Array).

Lemma slice_length_min {A : Type} (l : list A) (start n : nat) :
  length (slice l start (start + n)) = n `min` (length l - start).
Proof. unfold slice. rewrite length_take, length_drop. lia. Qed.

Lemma updated_length (metric : Metric) (vars : list Array) loss y y_pred :
  (∀ vars args,
     length (stateless_update_state metric vars args) = length vars) →
  length (updated metric vars loss y y_pred) = length vars.
Proof. intros Hkeep. unfold updated. by destruct (String.eqb _ _). Qed.

(** With updates that keep the number of variables, the loop collects
    as many variables as the metrics hold, or as many as are left of
    [metrics_variables] from [offset] on if these are fewer. *)
Lemma updated_vars_length_min ms mv loss y y_pred offset :
  (∀ metric vars args, metric ∈ ms →
     length (stateless_update_state metric vars args) = length vars) →
  length (concat (updated_vars ms mv loss y y_pred offset))
  = count_variables ms `min` (length mv - offset).
Proof.
  revert offset. induction ms as [|metric ms IH]; intros offset Hkeep.
  - reflexivity.
  - unfold count_variables in *. cbn [foldr updated_vars concat].
    rewrite length_app.
    assert (length (updated metric
                      (slice mv offset (offset + length (metric_variables metric)))
                      loss y y_pred)
            = length (metric_variables metric) `min` (length mv - offset))
      as Hthis.
    { rewrite updated_length; [apply slice_length_min|].
      intros vars args. apply Hkeep, list_elem_of_here. }
    rewrite IH, Hthis.
    + lia.
    + intros m vars args Hin. apply Hkeep. by apply list_elem_of_further.
Qed.

(** When [metrics_variables] is the chunks of the metrics one after
    the other, behind [pre], the loop started at the end of [pre] hands
    every metric its own chunk. *)
Lemma updated_vars_chunks ms (chunks : list (list Array)) (pre : list Array)
    loss y y_pred :
  Forall2 (λ metric chunk, length chunk = length (metric_variables metric))
    ms chunks →
  (∀ metric vars args, metric ∈ ms →
     length (stateless_update_state metric vars args) = length vars) →
  updated_vars ms (pre ++ concat chunks) loss y y_pred (length pre)
  = zip_with (λ metric chunk, updated metric chunk loss y y_pred) ms chunks.
Proof.
  intros Hchunks. revert pre.
  induction Hchunks as [|metric chunk ms chunks Hlen _ IH]; intros pre Hkeep.
  - reflexivity.
  - cbn [updated_vars concat zip_with].
    assert (slice (pre ++ chunk ++ concat chunks) (length pre)
              (length pre + length (metric_variables metric)) = chunk)
      as Hslice.
    { unfold slice. rewrite drop_app_length, <- Hlen.
      replace (length pre + length chunk - length pre) with (length chunk)
        by lia.
      by rewrite take_app_length. }
    rewrite Hslice. f_equal.
    rewrite updated_length
      by (intros vars args; apply Hkeep, list_elem_of_here).
    rewrite <- length_app.
    replace (pre ++ chunk ++ concat chunks)
      with ((pre ++ chunk) ++ concat chunks) by (by rewrite <- app_assoc).
    apply IH. intros m vars args Hin. apply Hkeep.
    by apply list_elem_of_further.
Qed.

(** X3. The slices of the metric loop are clamped to
    [metrics_variables] and never raise: when every
    [stateless_update_state] returns as many variables as it is given,
    the [new_metrics_vars] of the first [train_step] and of [test_step]
    have as many entries as the metrics have variables together, or as
    many as [metrics_variables] has if these are fewer. *)
Theorem new_metrics_vars_length_is_clamped
    (self : Model) (tv ntv ov mv : list Array) (x y : Array) :
  metrics self ≠ [] →
  (∀ metric vars args, metric ∈ metrics self →
     length (stateless_update_state metric vars args) = length vars) →
  (∃ logs tv' ntv' ov' mv',
     (SimpleExample.train_step (tv, ntv, ov, mv) (x, y) self).1
     = Ok (logs, (tv', ntv', ov', mv')) ∧
     length mv' = count_variables (metrics self) `min` length mv) ∧
  (∃ logs ntv' mv',
     (Evaluation.test_step (tv, ntv, mv) (x, y) self).1
     = Ok (logs, (tv, ntv', mv')) ∧
     length mv' = count_variables (metrics self) `min` length mv).
Proof.
  intros Hms Hkeep. split.
  - rewrite simple_train_step_eq. cbn [fst].
    destruct (SimpleExample.grad_fn self tv ntv x y true)
      as [[loss [y_pred ntv']] grads].
    destruct (stateless_apply (optimizer self) ov grads tv) as [tv' ov'].
    destruct (update_metrics_logs (metrics self) mv loss y y_pred Hms)
      as [logs Hlogs].
    cbv zeta. rewrite Hlogs. eexists _, _, _, _, _. split; [reflexivity|].
    unfold update_metrics. rewrite loop_vars, app_nil_l.
    rewrite updated_vars_length_min by exact Hkeep. cbn [length]. lia.
  - rewrite test_step_eq. cbn [fst].
    destruct (stateless_call self tv ntv x false) as [y_pred ntv'].
    destruct (update_metrics_logs (metrics self) mv
                (compute_loss self x y y_pred) y y_pred Hms) as [logs Hlogs].
    cbv zeta. rewrite Hlogs. eexists _, _, _. split; [reflexivity|].
    unfold update_metrics. rewrite loop_vars, app_nil_l.
    rewrite updated_vars_length_min by exact Hkeep. cbn [length]. lia.
Qed.

(** X4. When the incoming [metrics_variables] is the variables of the
    metrics one after the other, as [fit()] and [evaluate()] pass it,
    and every [stateless_update_state] returns as many variables as it
    is given, [test_step] updates every metric on its own variables:
    the metric named [loss] with the loss, the others with [y] and
    [y_pred], and returns the updated chunks in the same order. *)
Theorem each_metric_is_updated_on_its_own_variables
    (self : Model) (tv ntv : list Array) (chunks : list (list Array))
    (x y : Array) :
  metrics self ≠ [] →
  Forall2 (λ metric chunk, length chunk = length (metric_variables metric))
    (metrics self) chunks →
  (∀ metric vars args, metric ∈ metrics self →
     length (stateless_update_state metric vars args) = length vars) →
  ∃ logs,
    (Evaluation.test_step (tv, ntv, concat chunks) (x, y) self).1
    = Ok (logs,
          (tv, (stateless_call self tv ntv x false).2,
           concat
             (zip_with
                (λ metric chunk,
                   if String.eqb (metric_name metric) "loss"
                   then stateless_update_state metric chunk
                          [compute_loss self x y
                             (stateless_call self tv ntv x false).1]
                   else stateless_update_state metric chunk
                          [y; (stateless_call self tv ntv x false).1])
                (metrics self) chunks))).
Proof.
  intros Hms Hchunks Hkeep. rewrite test_step_eq. cbn [fst].
  destruct (stateless_call self tv ntv x false) as [y_pred ntv'].
  destruct (update_metrics_logs (metrics self) (concat chunks)
              (compute_loss self x y y_pred) y y_pred Hms) as [logs Hlogs].
  cbv zeta. rewrite Hlogs. exists logs. cbn [return_logs fst snd].
  do 3 f_equal. unfold update_metrics. rewrite loop_vars, app_nil_l.
  f_equal.
  apply (updated_vars_chunks (metrics self) chunks [] _ y y_pred Hchunks Hkeep).
Qed.

(** X5. Under the contract of [jax.value_and_grad], the first
    [train_step] evaluates the model once with [training=True]: the
    non-trainable variables it returns are those of that call of
    [stateless_call], and its metrics are updated with the loss that
    [compute_loss] gives for the prediction of that call. *)
Theorem train_step_evaluates_in_training_mode
    (self : Model) (tv ntv ov mv : list Array) (x y : Array) :
  returns_the_value →
  (SimpleExample.train_step (tv, ntv, ov, mv) (x, y) self).1
  = (let y_pred := (stateless_call self tv ntv x true).1 in
     let loss := compute_loss self x y y_pred in
     let updated := stateless_apply (optimizer self) ov
                      (SimpleExample.grad_fn self tv ntv x y true).2 tv in
     let loop := update_metrics (metrics self) mv loss y y_pred in
     return_logs loop.2
       (updated.1, (stateless_call self tv ntv x true).2, updated.2, loop.1)).
Proof.
  intros Hjax. rewrite simple_train_step_eq. cbn [fst].
  unfold SimpleExample.grad_fn.
  pose proof (Hjax _ (λ tv ntv x y training,
                bound_method self
                  (SimpleExample.compute_loss_and_updates tv ntv x y training))
                tv ntv x y true) as Hvalue.
  destruct (value_and_grad _ tv ntv x y true)
    as [[loss [y_pred ntv']] grads] eqn:Hg.
  cbn [fst snd] in Hvalue |- *.
  unfold bound_method, SimpleExample.compute_loss_and_updates,
    mbind, M_bind, mret, M_ret, getattr in Hvalue.
  destruct (stateless_call self tv ntv x true) as [y_pred0 ntv0].
  cbn [fst snd] in Hvalue |- *. injection Hvalue as -> -> ->.
  by destruct (stateless_apply (optimizer self) ov grads tv).
Qed.

(** X6. Under the contract of [jax.value_and_grad], for a model whose
    forward pass does not depend on the [training] flag, the first
    [train_step] and [test_step] report the same: the same logs (or
    the same exception), the same non-trainable variables and the same
    new metric variables for the same incoming variables and batch. *)
Theorem train_and_test_steps_report_the_same
    (self : Model) (tv ntv ov mv : list Array) (x y : Array) :
  returns_the_value →
  (∀ tv ntv x, stateless_call self tv ntv x true
               = stateless_call self tv ntv x false) →
  match (SimpleExample.train_step (tv, ntv, ov, mv) (x, y) self).1,
        (Evaluation.test_step (tv, ntv, mv) (x, y) self).1 with
  | Ok (logs, (_, ntv', _, mv')), Ok (logs_t, (tv_t, ntv_t, mv_t)) =>
      logs = logs_t ∧ ntv' = ntv_t ∧ mv' = mv_t ∧ tv_t = tv
  | Raise e, Raise e_t => e = e_t
  | _, _ => False
  end.
Proof.
  intros Hjax Hmode.
  rewrite (train_step_evaluates_in_training_mode self tv ntv ov mv x y Hjax).
  rewrite test_step_eq. cbn [fst]. rewrite Hmode.
  destruct (stateless_call self tv ntv x false) as [y_pred ntv'].
  cbn [fst snd]. cbv zeta.
  destruct (stateless_apply _ _ _ _) as [tv' ov'].
  destruct (update_metrics (metrics self) mv _ y y_pred) as [new [logs|]];
    cbn [return_logs fst snd]; auto.
Qed.

End MetricSlices.

Lemma toy_returns_the_value : returns_the_value (H := Toy.backend).
Proof. intros Aux f tv ntv x y training. reflexivity. Qed.

Lemma toy_metrics_keep_length (ms : list Metric) :
  Forall (λ m, ∃ name n, m = Toy.metric name n) ms →
  ∀ metric vars args, metric ∈ ms →
    length (stateless_update_state metric vars args) = length vars.
Proof.
  intros Hms metric vars args Hin.
  rewrite Forall_forall in Hms. destruct (Hms _ Hin) as (name & n & ->).
  apply length_map.
Qed.

Lemma toy_two_metrics : Forall (λ m, ∃ name n, m = Toy.metric name n) Toy.two_metrics.
Proof. repeat constructor; eexists _, _; reflexivity. Qed.

Lemma new_metrics_vars_length_is_clamped_witness :
  metrics (Toy.model Toy.two_metrics) ≠ [] ∧
  ∃ logs ntv' mv',
    (Evaluation.test_step (H := Toy.backend) ([1; 2], [5], [10; 20])%Z
       Toy.batch (Toy.model Toy.two_metrics)).1
    = Ok (logs, ([1; 2]%Z, ntv', mv')) ∧
    length mv' = 2.
Proof.
  assert (metrics (Toy.model Toy.two_metrics) ≠ []) as Hms by done.
  split; [exact Hms|].
  destruct (new_metrics_vars_length_is_clamped (Toy.model Toy.two_metrics)
              [1; 2]%Z [5]%Z [0]%Z [10; 20]%Z 3%Z 4%Z Hms
              (toy_metrics_keep_length _ toy_two_metrics))
    as (_ & logs & ntv' & mv' & Hstep & Hlen).
  exists logs, ntv', mv'. split; [exact Hstep | exact Hlen].
Defined.

Lemma each_metric_is_updated_on_its_own_variables_witness :
  Forall2 (λ metric chunk, length chunk = length (metric_variables metric))
    (metrics (Toy.model Toy.two_metrics)) [[10]; [20; 30]]%Z ∧
  ∃ logs,
    (Evaluation.test_step Toy.test_state Toy.batch
       (Toy.model Toy.two_metrics)).1
    = Ok (logs, ([1; 2], [5], [14; 30; 40])%Z).
Proof.
  assert (Forall2 (λ metric chunk,
                     length chunk = length (metric_variables metric))
            (metrics (Toy.model Toy.two_metrics)) [[10]; [20; 30]]%Z)
    as Hchunks by (repeat constructor).
  split; [exact Hchunks|].
  exact (each_metric_is_updated_on_its_own_variables
           (Toy.model Toy.two_metrics) [1; 2]%Z [5]%Z [[10]; [20; 30]]%Z
           3%Z 4%Z ltac:(done) Hchunks
           (toy_metrics_keep_length _ toy_two_metrics)).
Defined.

Lemma train_step_evaluates_in_training_mode_witness :
  returns_the_value (H := Toy.backend) ∧
  (SimpleExample.train_step Toy.train_state Toy.batch
     (Toy.model Toy.two_metrics)).1
  = Ok (70, ([0; 1], [5], [1], [14; 30; 40]))%Z.
Proof.
  split; [exact toy_returns_the_value|].
  exact (train_step_evaluates_in_training_mode (Toy.model Toy.two_metrics)
           [1; 2]%Z [5]%Z [0]%Z [10; 20; 30]%Z 3%Z 4%Z toy_returns_the_value).
Defined.

Lemma train_and_test_steps_report_the_same_witness :
  returns_the_value (H := Toy.backend) ∧
  (∀ tv ntv x, stateless_call (Toy.model Toy.two_metrics) tv ntv x true
               = stateless_call (Toy.model Toy.two_metrics) tv ntv x false) ∧
  match (SimpleExample.train_step Toy.train_state Toy.batch
           (Toy.model Toy.two_metrics)).1,
        (Evaluation.test_step Toy.test_state Toy.batch
           (Toy.model Toy.two_metrics)).1 with
  | Ok (logs, (_, ntv', _, mv')), Ok (logs_t, (tv_t, ntv_t, mv_t)) =>
      logs = logs_t ∧ ntv' = ntv_t ∧ mv' = mv_t ∧ tv_t = [1; 2]%Z
  | Raise e, Raise e_t => e = e_t
  | _, _ => False
  end.
Proof.
  split; [exact toy_returns_the_value|]. split; [reflexivity|].
  exact (train_and_test_steps_report_the_same (Toy.model Toy.two_metrics)
           [1; 2]%Z [5]%Z [0]%Z [10; 20; 30]%Z 3%Z 4%Z
           toy_returns_the_value (λ _ _ _, eq_refl)).
Defined.

(** ** The notebook: what the steps leave, read and return *)

Section StatelessSteps.
Context `{Backend}.
Implicit Types (ms : list Metric) (mv : list Array).


Lemma last_zip_with {A B C : Type} (f : A → B → C) (l : list A) (k : list B)
    (a : A) (b : B) :
  length l = length k → last l = Some a → last k = Some b →
  last (zip_with f l k) = Some (f a b).
Proof.
  revert k. induction l as [|x l IH]; intros [|z k] Hlen Ha Hb;
    try discriminate.
  destruct l as [|x' l], k as [|z' k]; try discriminate.
  - cbn in Ha, Hb |- *. by injection Ha as ->; injection Hb as ->.
  - change (last (zip_with f (x' :: l) (z' :: k)) = Some (f a b)).
    apply IH; [cbn [length] in Hlen |- *; lia | exact Ha | exact Hb].
Qed.








(** C3, as amended.  Each operation of the steps is performed by a call
    into the framework, and the notebook's own code is what routes the
    calls.  The forward pass is [stateless_call] and the loss
    [compute_loss] or [loss_fn]; the gradients are what
    [jax.value_and_grad] returns for [compute_loss_and_updates]; the new
    trainable and optimizer variables are what
    [optimizer.stateless_apply] returns.  When [metrics_variables] is
    the variables of the metrics one after the other and every update
    returns as many variables as it is given, the loop of the first
    [train_step] and of [test_step] calls [stateless_update_state] of
    every metric on the variables of that metric, with the loss for the
    metric named [loss] and with [y] and [y_pred] for the others, returns
    what these calls return, one after the other, and gives as logs
    [stateless_result] of the last metric.  The lower-level
    [train_step] cuts [metrics_variables] behind the variables of its
    loss tracker and calls its two metrics on the two parts. *)
Theorem steps_route_framework_calls
    (self : Model) (low : LowerLevel.CustomModel)
    (tv ntv ov mv : list Array) (chunks : list (list Array))
    (x y : Array) (training : bool)
    (last_metric : Metric) (last_chunk : list Array) :
  Forall2 (λ metric chunk, length chunk = length (metric_variables metric))
    (metrics self) chunks →
  (∀ metric vars args, metric ∈ metrics self →
     length (stateless_update_state metric vars args) = length vars) →
  last (metrics self) = Some last_metric →
  last chunks = Some last_chunk →
  let traced :=
    value_and_grad
      (λ tv ntv x y training,
         (SimpleExample.compute_loss_and_updates tv ntv x y training self).1)
      tv ntv x y true in
  let applied := stateless_apply (optimizer self) ov traced.2 tv in
  let evaluated := stateless_call self tv ntv x false in
  let traced_low :=
    value_and_grad
      (λ tv ntv x y training,
         (LowerLevel.compute_loss_and_updates tv ntv x y training low).1)
      tv ntv x y true in
  let applied_low :=
    stateless_apply (optimizer (LowerLevel.super low)) ov traced_low.2 tv in
  let update := λ (loss y_pred : Array) (metric : Metric) (chunk : list Array),
    if String.eqb (metric_name metric) "loss"
    then stateless_update_state metric chunk [loss]
    else stateless_update_state metric chunk [y; y_pred] in
  (SimpleExample.compute_loss_and_updates tv ntv x y training self).1
  = (compute_loss self x y (stateless_call self tv ntv x training).1,
     stateless_call self tv ntv x training) ∧
  (LowerLevel.compute_loss_and_updates tv ntv x y training low).1
  = (LowerLevel.loss_fn low y
       (stateless_call (LowerLevel.super low) tv ntv x training).1,
     stateless_call (LowerLevel.super low) tv ntv x training) ∧
  (SimpleExample.train_step (tv, ntv, ov, concat chunks) (x, y) self).1
  = Ok (stateless_result last_metric
          (update traced.1.1 traced.1.2.1 last_metric last_chunk),
        (applied.1, traced.1.2.2, applied.2,
         concat (zip_with (update traced.1.1 traced.1.2.1)
                   (metrics self) chunks))) ∧
  (Evaluation.test_step (tv, ntv, concat chunks) (x, y) self).1
  = Ok (stateless_result last_metric
          (update (compute_loss self x y evaluated.1) evaluated.1
             last_metric last_chunk),
        (tv, evaluated.2,
         concat (zip_with (update (compute_loss self x y evaluated.1)
                             evaluated.1)
                   (metrics self) chunks))) ∧
  (LowerLevel.train_step (tv, ntv, ov, mv) (x, y) low).1
  = (let n := length (metric_variables (LowerLevel.loss_tracker low)) in
     let loss_tracker_vars :=
       stateless_update_state (LowerLevel.loss_tracker low) (take n mv)
         [traced_low.1.1] in
     let mae_metric_vars :=
       stateless_update_state (LowerLevel.mae_metric low) (drop n mv)
         [y; traced_low.1.2.1] in
     (<[metric_name (LowerLevel.mae_metric low) :=
          stateless_result (LowerLevel.mae_metric low) mae_metric_vars]>
        (<[metric_name (LowerLevel.loss_tracker low) :=
             stateless_result (LowerLevel.loss_tracker low) loss_tracker_vars]>
           ∅),
      (applied_low.1, traced_low.1.2.2, applied_low.2,
       loss_tracker_vars ++ mae_metric_vars))).
Proof.
  intros Hchunks Hkeep Hlast Hlast_chunk
    traced applied evaluated traced_low applied_low update.
  assert (∀ loss y_pred,
            update_metrics (metrics self) (concat chunks) loss y y_pred
            = (concat (zip_with (update loss y_pred) (metrics self) chunks),
               Some (stateless_result last_metric
                       (update loss y_pred last_metric last_chunk))))
    as Hloop.
  { intros loss y_pred.
    pose proof (updated_vars_chunks (metrics self) chunks [] loss y y_pred
                  Hchunks Hkeep) as Hvars.
    cbn [app length] in Hvars.
    destruct (loop_logs (metrics self) (concat chunks) loss y y_pred [] None
                _ Hlast) as (vars & Hvars_last & Hlogs).
    cbn [length] in Hvars_last. rewrite Hvars in Hvars_last.
    rewrite (last_zip_with _ _ _ _ _ (Forall2_length _ _ _ Hchunks)
               Hlast Hlast_chunk) in Hvars_last.
    injection Hvars_last as <-.
    unfold update_metrics.
    rewrite (surjective_pairing (foldl _ _ _)), Hlogs, loop_vars.
    cbn [app length]. by rewrite Hvars. }
  split; [|split; [|split; [|split]]].
  - unfold SimpleExample.compute_loss_and_updates,
      mbind, M_bind, mret, M_ret, getattr.
    by destruct (stateless_call self tv ntv x training).
  - unfold LowerLevel.compute_loss_and_updates,
      mbind, M_bind, mret, M_ret, getattr.
    by destruct (stateless_call (LowerLevel.super low) tv ntv x training).
  - rewrite simple_train_step_eq. cbn [fst].
    subst applied traced. unfold SimpleExample.grad_fn, bound_method.
    match goal with
    | |- context [value_and_grad ?f tv ntv x y true] =>
        destruct (value_and_grad f tv ntv x y true)
          as [[loss [y_pred ntv']] grads]
    end.
    cbn [fst snd].
    destruct (stateless_apply (optimizer self) ov grads tv) as [tv' ov'].
    cbv zeta. by rewrite Hloop.
  - rewrite test_step_eq. cbn [fst]. subst evaluated.
    destruct (stateless_call self tv ntv x false) as [y_pred ntv'].
    cbv zeta. by rewrite Hloop.
  - rewrite lower_train_step_eq. cbn [fst].
    subst applied_low traced_low. unfold LowerLevel.grad_fn, bound_method.
    match goal with
    | |- context [value_and_grad ?f tv ntv x y true] =>
        destruct (value_and_grad f tv ntv x y true)
          as [[loss [y_pred ntv']] grads]
    end.
    cbn [fst snd].
    by destruct (stateless_apply (optimizer (LowerLevel.super low)) ov grads tv).
Qed.

End StatelessSteps.



(** C3 as first stated fails: the metric update of a step is not a
    call into the framework but a loop of the notebook around such
    calls.  From the metric variables [[10; 20; 30]] the first
    [train_step] makes [[14; 30; 40]], which no call of
    [stateless_update_state] of either metric returns for these
    variables, whatever its other arguments: the loop hands the first
    metric the first variable and the second metric the other two, and
    keeps the result of the last metric as logs.  With the same two
    metrics in the other order it makes [[20; 30; 34]] and other logs. *)
Lemma metric_update_is_the_notebooks_loop :
  (SimpleExample.train_step Toy.train_state Toy.batch
     (Toy.model [Toy.metric "loss" 1; Toy.metric "mae" 2])).1
  = Ok (70, ([0; 1], [5], [1], [14; 30; 40]))%Z ∧
  (∀ metric args, metric ∈ [Toy.metric "loss" 1; Toy.metric "mae" 2] →
     stateless_update_state metric [10; 20; 30]%Z args ≠ [14; 30; 40]%Z) ∧
  (SimpleExample.train_step Toy.train_state Toy.batch
     (Toy.model [Toy.metric "mae" 2; Toy.metric "loss" 1])).1
  = Ok (34, ([0; 1], [5], [1], [20; 30; 34]))%Z.
Proof.
  split; [vm_compute; reflexivity|]. split; [|vm_compute; reflexivity].
  intros metric args Hin.
  assert (stateless_update_state metric [10; 20; 30]%Z args
          = map (Z.add (Toy.total args)) [10; 20; 30]%Z) as ->.
  { apply elem_of_cons in Hin as [->|Hin]; [reflexivity|].
    apply elem_of_cons in Hin as [->|Hin]; [reflexivity|].
    by apply elem_of_nil in Hin. }
  cbn [map]. intros Heq. injection Heq as H1 H2 H3. lia.
Qed.

Lemma steps_route_framework_calls_witness :
  Forall2 (λ metric chunk, length chunk = length (metric_variables metric))
    (metrics (Toy.model Toy.two_metrics)) [[10]; [20; 30]]%Z ∧
  last (metrics (Toy.model Toy.two_metrics)) = Some (Toy.metric "mae" 2) ∧
  last [[10]; [20; 30]]%Z = Some [20; 30]%Z ∧
  (Evaluation.test_step Toy.test_state Toy.batch (Toy.model Toy.two_metrics)).1
  = Ok (70, ([1; 2], [5], [14; 30; 40]))%Z.
Proof.
  assert (Forall2 (λ metric chunk,
                     length chunk = length (metric_variables metric))
            (metrics (Toy.model Toy.two_metrics)) [[10]; [20; 30]]%Z)
    as Hchunks by (repeat constructor).
  split; [exact Hchunks|]. split; [reflexivity|]. split; [reflexivity|].
  exact (proj1 (proj2 (proj2 (proj2
           (steps_route_framework_calls
              (Toy.model Toy.two_metrics)
              (LowerLevel.__init__ Toy.keras (Toy.model []))
              [1; 2]%Z [5]%Z [0]%Z [10; 20; 30]%Z [[10]; [20; 30]]%Z
              3%Z 4%Z true (Toy.metric "mae" 2) [20; 30]%Z
              Hchunks (toy_metrics_keep_length _ toy_two_metrics)
              eq_refl eq_refl))))).
Defined.

(** ** The notebook: objects of the classes it defines *)

Section CustomModelObjects.
Context `{Backend}.





End CustomModelObjects.

(** ** The cells in outline: names and statements *)

Section OutlineFacts.
Import Outline.

(** Induction on statements through the bodies of compound statements. *)
Lemma stmt_children_ind (P : stmt → Prop) :
  (∀ s, Forall P (children s) → P s) → ∀ s, P s.
Proof.
  intros Hnode. fix IH 1. intros s. apply Hnode.
  pose (all := fix all (l : list stmt) : Forall P l :=
          match l with
          | [] => @List.Forall_nil _ P
          | x :: l => @List.Forall_cons _ P x l (IH x) (all l)
          end).
  destruct s; cbn [children]; rewrite ?Forall_app; repeat split;
    first [apply all | by constructor | constructor; [apply IH | constructor]].
Qed.


Lemma is_bound_mono (g h : list string) (n : string) :
  g ⊆ h → is_bound g n = true → is_bound h n = true.
Proof.
  unfold is_bound. intros Hsub.
  rewrite !orb_true_iff, !bool_decide_eq_true. intros [Hg|Hb]; auto.
Qed.

Lemma read_mono (ns g h : list string) :
  g ⊆ h → read ns g = Ok tt → read ns h = Ok tt.
Proof.
  intros Hsub. induction ns as [|n ns IH]; [done|]. cbn [read].
  destruct (is_bound g n) eqn:Hn; [|discriminate].
  by rewrite (is_bound_mono g h n Hsub Hn).
Qed.


Lemma app_subseteq (l g h : list string) : g ⊆ h → l ++ g ⊆ l ++ h.
Proof. intros Hsub n. rewrite !elem_of_app. intros [Hn|Hn]; auto. Qed.

Lemma cons_subseteq (x : string) (g h : list string) : g ⊆ h → x :: g ⊆ x :: h.
Proof. intros Hsub n. rewrite !elem_of_cons. intros [Hn|Hn]; auto. Qed.

Lemma subseteq_app (l g : list string) : g ⊆ l ++ g.
Proof. intros n. rewrite elem_of_app. auto. Qed.

Lemma subseteq_cons (x : string) (g : list string) : g ⊆ x :: g.
Proof. intros n. rewrite elem_of_cons. auto. Qed.


Lemma exec_If reads body orelse g :
  exec (If reads body orelse) g
  = match read reads g with
    | Ok _ =>
        match exec_cell body g, exec_cell orelse g with
        | Ok g1, Ok g2 => Ok (filter (.∈ g2) g1)
        | Raise e, _ | _, Raise e => Raise e
        end
    | Raise e => Raise e
    end.
Proof. reflexivity. Qed.

Lemma exec_For targets reads body g :
  exec (For targets reads body) g
  = match read reads g with
    | Ok _ =>
        match exec_cell body (targets ++ g) with
        | Ok _ => Ok g
        | Raise e => Raise e
        end
    | Raise e => Raise e
    end.
Proof. reflexivity. Qed.

Lemma exec_ClassDef name bases body g :
  exec (ClassDef name bases body) g
  = match read bases g with
    | Ok _ =>
        match exec_cell body g with
        | Ok _ => Ok (name :: g)
        | Raise e => Raise e
        end
    | Raise e => Raise e
    end.
Proof. reflexivity. Qed.

Lemma exec_Try body handlers finalbody g :
  exec (Try body handlers finalbody) g
  = match exec_cell body g, exec_cell handlers g with
    | Ok _, Ok _ => exec_cell finalbody g
    | Raise e, _ | _, Raise e => Raise e
    end.
Proof. reflexivity. Qed.

Lemma exec_With reads binds body g :
  exec (With reads binds body) g
  = match read reads g with
    | Ok _ => exec_cell body (binds ++ g)
    | Raise e => Raise e
    end.
Proof. reflexivity. Qed.

Lemma exec_cell_completes_with_more (c : Cell) :
  Forall completes_with_more c →
  ∀ g h g', g ⊆ h → exec_cell c g = Ok g' →
    ∃ h', exec_cell c h = Ok h' ∧ g' ⊆ h'.
Proof.
  induction 1 as [|s c Hs _ IH]; intros g h g' Hsub Hg.
  - cbn in Hg |- *. injection Hg as <-. eauto.
  - cbn [exec_cell] in Hg |- *.
    destruct (exec s g) as [g1|] eqn:Hs1; [|discriminate].
    destruct (Hs g h g1 Hsub Hs1) as (h1 & -> & Hsub1). eauto.
Qed.

(** A statement that reads no unbound name where the names [g] are
    bound reads none where more names are bound, and binds no less. *)
Lemma exec_completes_with_more (s : stmt) : completes_with_more s.
Proof.
  induction s as [s IH] using stmt_children_ind.
  intros g h g' Hsub Hg.
  pose proof exec_cell_completes_with_more as Hcell.
  assert (∀ ns, read ns g = Ok tt → read ns h = Ok tt) as Hread
    by (intros ns; by apply read_mono).
  destruct s; cbn [children] in IH; rewrite ?Forall_app in IH;
    rewrite ?exec_If, ?exec_For, ?exec_ClassDef, ?exec_Try, ?exec_With
      in Hg |- *;
    cbn [exec] in Hg |- *;
    repeat match type of Hg with
           | context [read ?ns g] =>
               destruct (read ns g) as [[]|] eqn:Hr; [|discriminate];
               rewrite (Hread _ Hr); clear Hr
           end.
  - injection Hg as <-. eauto using app_subseteq.
  - injection Hg as <-. eauto using app_subseteq.
  - injection Hg as <-. eauto using cons_subseteq.
  - injection Hg as <-. eauto.
  - injection Hg as <-. eauto.
  - injection Hg as <-. eauto.
  - injection Hg as <-. eauto.
  - destruct IH as [Hbody Horelse].
    destruct (exec_cell body g) as [g1|] eqn:H1; [|discriminate].
    destruct (exec_cell orelse g) as [g2|] eqn:H2; [|discriminate].
    injection Hg as <-.
    destruct (Hcell _ Hbody _ _ _ Hsub H1) as (h1 & -> & Hsub1).
    destruct (Hcell _ Horelse _ _ _ Hsub H2) as (h2 & -> & Hsub2).
    eexists. split; [reflexivity|]. intros n.
    rewrite !list_elem_of_filter. intros [Hn2 Hn1]. split; auto.
  - destruct (exec_cell body (targets ++ g)) as [g1|] eqn:H1; [|discriminate].
    injection Hg as <-.
    destruct (Hcell _ IH (targets ++ g) (targets ++ h) _
                (app_subseteq _ _ _ Hsub) H1) as (h1 & -> & _).
    eauto.
  - injection Hg as <-. eauto using cons_subseteq.
  - destruct (exec_cell body g) as [g1|] eqn:H1; [|discriminate].
    injection Hg as <-.
    destruct (Hcell _ IH _ _ _ Hsub H1) as (h1 & -> & _).
    eauto using cons_subseteq.
  - destruct IH as (Hbody & Hhandlers & Hfinal).
    destruct (exec_cell body g) as [g1|] eqn:H1; [|discriminate].
    destruct (exec_cell handlers g) as [g2|] eqn:H2; [|discriminate].
    destruct (Hcell _ Hbody _ _ _ Hsub H1) as (h1 & -> & _).
    destruct (Hcell _ Hhandlers _ _ _ Hsub H2) as (h2 & -> & _).
    by apply (Hcell _ Hfinal g).
  - apply (Hcell _ IH (binds ++ g)); [by apply app_subseteq | exact Hg].
  - injection Hg as <-. eauto.
  - injection Hg as <-. eauto.
  - injection Hg as <-. eauto.
Qed.

Lemma exec_cell_keeps_bound (c : Cell) :
  Forall keeps_bound c → ∀ g g', exec_cell c g = Ok g' → g ⊆ g'.
Proof.
  induction 1 as [|s c Hs _ IH]; intros g g' Hg.
  - cbn in Hg. by injection Hg as <-.
  - cbn [exec_cell] in Hg.
    destruct (exec s g) as [g1|] eqn:Hs1; [|discriminate].
    etrans; [by apply Hs | by apply IH].
Qed.

(** A statement that completes leaves bound what was bound. *)
Lemma exec_keeps_bound (s : stmt) : keeps_bound s.
Proof.
  induction s as [s IH] using stmt_children_ind.
  intros g g' Hg.
  pose proof exec_cell_keeps_bound as Hcell.
  destruct s; cbn [children] in IH; rewrite ?Forall_app in IH;
    rewrite ?exec_If, ?exec_For, ?exec_ClassDef, ?exec_Try, ?exec_With in Hg;
    cbn [exec] in Hg;
    repeat match type of Hg with
           | context [read ?ns g] =>
               destruct (read ns g) as [[]|]; [|discriminate]
           end.
  - injection Hg as <-. apply subseteq_app.
  - injection Hg as <-. apply subseteq_app.
  - injection Hg as <-. apply subseteq_cons.
  - by injection Hg as <-.
  - by injection Hg as <-.
  - by injection Hg as <-.
  - by injection Hg as <-.
  - destruct IH as [Hbody Horelse].
    destruct (exec_cell body g) as [g1|] eqn:H1; [|discriminate].
    destruct (exec_cell orelse g) as [g2|] eqn:H2; [|discriminate].
    injection Hg as <-. intros n Hn. rewrite list_elem_of_filter.
    split; [by eapply (Hcell _ Horelse) | by eapply (Hcell _ Hbody)].
  - destruct (exec_cell body (targets ++ g)); [|discriminate].
    by injection Hg as <-.
  - injection Hg as <-. apply subseteq_cons.
  - destruct (exec_cell body g); [|discriminate].
    injection Hg as <-. apply subseteq_cons.
  - destruct IH as (Hbody & Hhandlers & Hfinal).
    destruct (exec_cell body g); [|discriminate].
    destruct (exec_cell handlers g); [|discriminate].
    by apply (Hcell _ Hfinal).
  - etrans; [apply (subseteq_app binds) | by apply (Hcell _ IH)].
  - by injection Hg as <-.
  - by injection Hg as <-.
  - by injection Hg as <-.
Qed.

Lemma exec_cell_more_names (c : Cell) (g h g' : list string) :
  g ⊆ h → exec_cell c g = Ok g' → ∃ h', exec_cell c h = Ok h' ∧ g' ⊆ h'.
Proof.
  apply exec_cell_completes_with_more, Forall_forall.
  intros s _. apply exec_completes_with_more.
Qed.

Lemma exec_cell_names_stay (c : Cell) (g g' : list string) :
  exec_cell c g = Ok g' → g ⊆ g'.
Proof.
  apply exec_cell_keeps_bound, Forall_forall.
  intros s _. apply exec_keeps_bound.
Qed.

(** C5, as amended.  The code snippets of a guide are cells that run
    one after the other in one interpreter session, and all but the
    first depend on earlier ones.  In document order no cell of the two
    guides reads a name that is not bound: what a cell needs from the
    session, for its own statements and for the methods it defines, the
    cells before it have bound.  Run on its own, the "Setup" cell
    completes and every other cell ends with a [NameError], on [keras],
    [layers], [ops], [model] or [layer].  Run after "Setup" alone, the
    cells [model.layers], [model.pop()], [model.summary()] and
    [y = layer(x)] of the Sequential guide and the first cell of the
    notebook that makes a [CustomModel] still end with a [NameError], on
    [model], [layer] and [CustomModel]: they continue from what the cell
    before them has left.  The session model of the Sequential guide
    ends the cells on the same names.  Names stay bound once they are,
    and a cell that reads no unbound name in one session reads none in
    any session that binds at least the same names. *)
Theorem snippets_continue_the_session (c : Cell) (g h : list string) :
  ((∃ bound, run notebook [] = Ok bound) ∧
   (∃ bound, run sequential_guide [] = Ok bound) ∧
   ∀ cells n cell,
     cells = notebook ∨ cells = sequential_guide → cells !! n = Some cell →
     ∃ before, bound_before cells n = Ok before ∧
               Forall (.∈ before) (needs cell)) ∧
  (alone notebook
   = [None; Some "keras"; Some "keras"; Some "keras"; Some "keras"] ∧
   alone sequential_guide
   = [None; Some "keras"; Some "layers"; Some "keras"; Some "model";
      Some "keras"; Some "model"; Some "keras"; Some "layers"; Some "ops";
      Some "keras"; Some "model"; Some "keras"; Some "model"; Some "keras";
      Some "keras"; Some "keras"; Some "keras"; Some "keras"]) ∧
  (after_setup notebook = [None; Some "CustomModel"; None; None] ∧
   after_setup sequential_guide
   = [None; None; None; Some "model"; None; Some "model"; None; None;
      Some "layer"; None; Some "model"; None; Some "model"; None; None;
      None; None; None]) ∧
  (∀ n, n < 15 →
     name_error (SequentialGuide.in_document_order n) = None ∧
     Some (name_error (SequentialGuide.in_isolation n))
     = alone sequential_guide !! n ∧
     (0 < n →
      Some (name_error (SequentialGuide.after_setup_only n))
      = after_setup sequential_guide !! (n - 1))) ∧
  (∀ bound, exec_cell c g = Ok bound → g ⊆ bound) ∧
  (g ⊆ h → ∀ bound, exec_cell c g = Ok bound →
     ∃ bound', exec_cell c h = Ok bound' ∧ bound ⊆ bound').
Proof.
  split; [|split; [|split; [|split; [|split]]]].
  - split; [vm_compute; eauto|]. split; [vm_compute; eauto|].
    intros cells n cell [-> | ->] Hn.
    + assert (n < 5) as Hlt by (apply lookup_lt_Some in Hn; exact Hn).
      do 5 (destruct n as [|n];
            [injection Hn as <-; eexists;
             split; [vm_compute; reflexivity|];
             vm_compute needs; repeat constructor;
             rewrite !elem_of_cons; auto 20|]).
      lia.
    + assert (n < 19) as Hlt by (apply lookup_lt_Some in Hn; exact Hn).
      do 19 (destruct n as [|n];
             [injection Hn as <-; eexists;
              split; [vm_compute; reflexivity|];
              vm_compute needs; repeat constructor;
              rewrite !elem_of_cons; auto 20|]).
      lia.
  - split; vm_compute; reflexivity.
  - split; vm_compute; reflexivity.
  - intros n Hn.
    do 15 (destruct n as [|n];
           [split; [vm_compute; reflexivity|];
            split; [vm_compute; reflexivity|];
            intros Hpos; first [lia | vm_compute; reflexivity]|]).
    lia.
  - intros bound. apply exec_cell_names_stay.
  - intros Hsub bound. by apply exec_cell_more_names.
Qed.

Lemma snippets_continue_the_session_witness :
  ["keras"; "layers"; "ops"] ⊆ ["model"; "ops"; "layers"; "keras"] ∧
  (∃ bound,
     exec_cell [Assign ["keras"] ["model"]; Expr ["model"; "layers"]]
       ["keras"; "layers"; "ops"] = Ok bound) ∧
  ∃ bound',
    exec_cell [Assign ["keras"] ["model"]; Expr ["model"; "layers"]]
      ["model"; "ops"; "layers"; "keras"] = Ok bound'.
Proof.
  assert (["keras"; "layers"; "ops"] ⊆ ["model"; "ops"; "layers"; "keras"])
    as Hsub.
  { intros n. rewrite !elem_of_cons.
    intros [->|[->|[->|Hn]]]; first [by apply elem_of_nil in Hn | auto 10]. }
  assert (exec_cell [Assign ["keras"] ["model"]; Expr ["model"; "layers"]]
            ["keras"; "layers"; "ops"]
          = Ok ["model"; "keras"; "layers"; "ops"]) as Hrun
    by (vm_compute; reflexivity).
  split; [exact Hsub|]. split; [eauto|].
  destruct (snippets_continue_the_session
              [Assign ["keras"] ["model"]; Expr ["model"; "layers"]]
              ["keras"; "layers"; "ops"] ["model"; "ops"; "layers"; "keras"])
    as (_ & _ & _ & _ & _ & Hmore).
  destruct (Hmore Hsub _ Hrun) as (bound' & Hrun' & _). eauto.
Defined.


End OutlineFacts.

(** ** The Sequential guide: generated names *)

Section GuideNames.
Import GeneratedNames.

Lemma count_app (base : string) (l1 l2 : list string) :
  count base (l1 ++ l2) = count base l1 + count base l2.
Proof. unfold count. by rewrite filter_app, length_app. Qed.

Lemma generate_app (before made1 made2 : list string) :
  generate before (made1 ++ made2)
  = generate before made1 ++ generate (before ++ made1) made2.
Proof.
  revert before. induction made1 as [|base made1 IH]; intros before.
  - cbn. by rewrite app_nil_r.
  - cbn [app generate]. rewrite IH. by rewrite <- app_assoc.
Qed.

Lemma generate_counts (before before' made : list string) :
  (∀ base, base ∈ made → count base before = count base before') →
  generate before made = generate before' made.
Proof.
  revert before before'.
  induction made as [|base made IH]; intros before before' Hcount;
    [reflexivity|].
  cbn [generate]. rewrite (Hcount base) by apply list_elem_of_here. f_equal.
  apply IH. intros base' Hin. rewrite !count_app.
  by rewrite (Hcount base') by (by apply list_elem_of_further).
Qed.

(** X17.  The names that the framework generates continue through the
    session: the name of an object made without a name depends on how
    many unnamed objects of its class the session has made before, and
    on nothing else.  The names that the guide displays are those that
    its cells generate in document order ([dense_7] to [dense_9] and
    [sequential_3] for the model of the first summary, [variable_12] and
    [variable_13] for the weights of [layer]); run on its own, the cell
    that makes that model generates [dense], [dense_1], [dense_2] and
    [sequential]. *)
Theorem generated_names_continue_the_session
    (before before' made made' : list string) :
  generate before (made ++ made')
  = generate before made ++ generate (before ++ made) made' ∧
  ((∀ base, base ∈ made → count base before = count base before') →
   generate before made = generate before' made) ∧
  (∀ n names, (n, names) ∈ displayed_names →
     names `sublist_of` generated_in_document_order n) ∧
  generated_in_document_order 10
  = ["dense_7"; "dense_8"; "dense_9"; "sequential_3"; "variable_14";
     "variable_15"; "variable_16"; "variable_17"; "variable_18";
     "variable_19"] ∧
  generated_in_isolation 10
  = ["dense"; "dense_1"; "dense_2"; "sequential"; "variable"; "variable_1";
     "variable_2"; "variable_3"; "variable_4"; "variable_5"].
Proof.
  split; [apply generate_app|]. split; [apply generate_counts|].
  split; [|split; vm_compute; reflexivity].
  intros n names Hin. unfold displayed_names in Hin.
  repeat (apply elem_of_cons in Hin as [Heq|Hin];
          [injection Heq as -> ->; vm_compute generated_in_document_order;
           repeat first [ apply sublist_nil | apply sublist_skip
                        | apply sublist_cons ]|]).
  by apply elem_of_nil in Hin.
Qed.

Lemma generated_names_continue_the_session_witness :
  (∀ base, base ∈ ["dense"; "sequential"] →
     count base ["variable"; "variable"] = count base []) ∧
  generate ["variable"; "variable"] ["dense"; "sequential"]
  = ["dense"; "sequential"].
Proof.
  assert (∀ base, base ∈ ["dense"; "sequential"] →
            count base ["variable"; "variable"] = count base []) as Hcount.
  { intros base. rewrite !elem_of_cons.
    intros [->|[->|Hin]]; [reflexivity | reflexivity |].
    by apply elem_of_nil in Hin. }
  split; [exact Hcount|].
  destruct (generated_names_continue_the_session
              ["variable"; "variable"] [] ["dense"; "sequential"] [])
    as (_ & Hsame & _).
  by rewrite (Hsame Hcount).
Defined.

End GuideNames.

(** ** The Sequential guide: models as lists of layers *)

Section GuideLists.
Import SequentialGuide.
Local Open Scope N_scope.

(** X7. "A Sequential model behaves very much like a list of layers":
    [add()] of a layer makes [model.layers] one longer, layers added
    one after the other stand in [model.layers] in that order behind
    those that were there, and [pop()] after the [add()] of a layer
    gives a model with the name and the layers that it had before. *)
Theorem pop_undoes_add (model : Sequential) (l : Layer) (ls : list Layer) :
  (∃ m', pop (add model (Lyr l)) = Ok m' ∧
         layers m' = layers model ∧ name m' = name model) ∧
  length (layers (add model (Lyr l))) = S (length (layers model)) ∧
  layers (foldl add model (Lyr <$> ls)) = layers model ++ ls.
Proof.
  split; [|split].
  - destruct model as [nm mls shp]. unfold pop, add.
    cbn [layers name input_shape].
    destruct (mls ++ [l]) eqn:Happ; [by destruct mls|].
    rewrite <- Happ. eexists. split; [reflexivity|].
    cbn [layers name]. split; [|reflexivity].
    rewrite length_app. cbn [length].
    replace (length mls + 1 - 1)%nat with (length mls) by lia.
    by rewrite take_app_length.
  - cbn [add layers]. rewrite length_app. cbn [length]. lia.
  - by rewrite foldl_add_layers.
Qed.

Lemma entries_app (ws1 ws2 : list (list N)) :
  entries (ws1 ++ ws2) = entries ws1 + entries ws2.
Proof.
  induction ws1 as [|w ws1 IH]; [reflexivity|].
  cbn [app]. unfold entries in *. cbn [foldr]. rewrite IH. lia.
Qed.

Lemma total_is_entries (fed : list (Layer * list N * list N)) (batch : option N) :
  foldr (λ r acc, row_params r + acc) 0
    (map (λ '(l, d, out),
            {| row_type := layer_type l; row_output_shape := Some (batch, out);
               row_params := count_params l d |}) fed)
  = entries (concat (map (λ '(l, d, _), weight_shapes l d) fed)).
Proof.
  induction fed as [|[[l d] out] fed IH]; [reflexivity|].
  cbn [map foldr concat row_params]. rewrite entries_app, IH. reflexivity.
Qed.

Lemma propagate_layers (ls : list Layer) (dims : list N) fed out :
  propagate ls dims = Ok (fed, out) → map (λ '(l, _, _), l) fed = ls.
Proof.
  revert dims fed out. induction ls as [|l ls IH]; intros dims fed out Hp.
  - cbn in Hp. by injection Hp as <- <-.
  - cbn [propagate] in Hp.
    destruct (compute_output_shape l dims) as [o|]; [|discriminate].
    destruct (propagate ls o) as [[fed' out']|] eqn:Hp'; [|discriminate].
    injection Hp as <- <-. cbn. f_equal. by eapply IH.
Qed.

(** X8. The summary of a model counts the weights of the model: its
    "Total params" is the number of entries of [model.weights], and it
    has one row per layer, in the order of [model.layers], with the type
    of the layer. *)
Theorem summary_counts_the_weights
    (model : Sequential) (ws : list (list N)) (s : Summary) :
  weights model = Ok ws → summary model = Ok s →
  total_params s = entries ws ∧
  length (rows s) = length (layers model) ∧
  map row_type (rows s) = map layer_type (layers model).
Proof.
  unfold weights, summary. intros Hw Hs.
  destruct (input_shape model) as [[batch dims]|].
  - destruct (propagate (layers model) dims) as [[fed out]|] eqn:Hp;
      [|discriminate].
    injection Hw as <-. injection Hs as <-. cbn [total_params rows].
    rewrite total_is_entries, length_map.
    split; [reflexivity|]. split; [by eapply propagate_length|].
    rewrite <- (propagate_layers _ _ _ _ Hp). rewrite !map_map.
    apply map_ext. by intros [[l d] o].
  - injection Hw as <-. injection Hs as <-. cbn [total_params rows].
    rewrite length_map, map_map. by split.
Qed.

Lemma summary_counts_the_weights_witness :
  weights {| name := None;
             layers := [Dense 2 relu; Dense 3 relu; Dense 4 linear];
             input_shape := Some (Some 1, [4]) |}
  = Ok [[4; 2]; [2]; [2; 3]; [3]; [3; 4]; [4]] ∧
  summary {| name := None;
             layers := [Dense 2 relu; Dense 3 relu; Dense 4 linear];
             input_shape := Some (Some 1, [4]) |}
  = Ok displayed_dense_summary ∧
  total_params displayed_dense_summary
  = entries [[4; 2]; [2]; [2; 3]; [3]; [3; 4]; [4]].
Proof.
  assert (weights {| name := None;
                     layers := [Dense 2 relu; Dense 3 relu; Dense 4 linear];
                     input_shape := Some (Some 1, [4]) |}
          = Ok [[4; 2]; [2]; [2; 3]; [3]; [3; 4]; [4]]) as Hw
    by (vm_compute; reflexivity).
  assert (summary {| name := None;
                     layers := [Dense 2 relu; Dense 3 relu; Dense 4 linear];
                     input_shape := Some (Some 1, [4]) |}
          = Ok displayed_dense_summary) as Hs by (vm_compute; reflexivity).
  split; [exact Hw|]. split; [exact Hs|].
  exact (proj1 (summary_counts_the_weights _ _ _ Hw Hs)).
Defined.

Lemma propagate_dense (ls : list Layer) (d : N) (ds : list N) :
  Forall is_dense ls →
  ∃ fed out,
    propagate ls (d :: ds) = Ok (fed, out) ∧
    length out = S (length ds) ∧
    length (concat (map (λ '(l, d, _), weight_shapes l d) fed))
    = (2 * length ls)%nat ∧
    (∀ units act, last ls = Some (Dense units act) → last out = Some units).
Proof.
  intros Hdense. revert d ds.
  induction Hdense as [|l ls Hl _ IH]; intros d ds.
  - eexists _, _. split; [reflexivity|]. split; [reflexivity|].
    split; [reflexivity|]. discriminate.
  - destruct l as [units act| | |]; try done.
    cbn [propagate compute_output_shape].
    set (out1 := take (length (d :: ds) - 1)%nat (d :: ds) ++ [units]).
    assert (length out1 = S (length ds)) as Hlen1.
    { subst out1. rewrite length_app, length_take. cbn [length]. lia. }
    destruct out1 as [|d1 ds1] eqn:Hout1; [discriminate|].
    destruct (IH d1 ds1) as (fed & out & Hp & Hlen & Hws & Hlast).
    rewrite Hp. eexists _, _. split; [reflexivity|].
    split; [cbn [length] in Hlen1; lia|]. split.
    + cbn [map concat weight_shapes]. rewrite length_app, Hws.
      cbn [length]. lia.
    + intros units' act' Hl'. destruct ls as [|l' ls'].
      * cbn in Hl'. injection Hl' as -> ->. cbn in Hp. injection Hp as _ <-.
        rewrite <- Hout1. subst out1. by rewrite last_snoc.
      * apply (Hlast units' act'). exact Hl'.
Qed.

(** X9. A stack of Dense layers accepts every input that has at least
    one axis beside the batch: the first call builds the model without
    an exception, the model then has two weights per layer (kernel and
    bias: 6 for three layers), and the output keeps the batch size and
    ends with the units of the last layer. *)
Theorem dense_stack_builds_on_any_input
    (ls : list Layer) (nm : option string) (batch d : N) (ds : list N) :
  Forall is_dense ls →
  ∃ out m' ws,
    call (new (Lyr <$> ls) nm) (batch :: d :: ds) = Ok (batch :: out, m') ∧
    built m' = true ∧
    weights m' = Ok ws ∧ length ws = (2 * length ls)%nat ∧
    length out = S (length ds) ∧
    (∀ units act, last ls = Some (Dense units act) → last out = Some units).
Proof.
  intros Hdense. rewrite new_layers_only.
  destruct (propagate_dense ls d ds Hdense)
    as (fed & out & Hp & Hlen & Hws & Hlast).
  unfold call, weights. cbn [layers input_shape name]. rewrite Hp.
  eexists out, _, _. split; [reflexivity|]. split; [reflexivity|].
  cbn [layers input_shape]. rewrite Hp. split; [reflexivity|].
  split; [exact Hws|]. split; [exact Hlen | exact Hlast].
Qed.

Lemma dense_stack_builds_on_any_input_witness :
  Forall is_dense [Dense 2 relu; Dense 3 relu; Dense 4 linear] ∧
  ∃ out m' ws,
    call (new three_dense None) [3; 3] = Ok (3 :: out, m') ∧
    weights m' = Ok ws ∧ length ws = 6%nat ∧ last out = Some 4.
Proof.
  assert (Forall is_dense [Dense 2 relu; Dense 3 relu; Dense 4 linear])
    as Hdense by (repeat constructor).
  split; [exact Hdense|].
  destruct (dense_stack_builds_on_any_input _ None 3 3 [] Hdense)
    as (out & m' & ws & Hcall & _ & Hw & Hlen & _ & Hlast).
  exists out, m', ws. split; [exact Hcall|]. split; [exact Hw|].
  split; [exact Hlen|]. by apply (Hlast 4 linear).
Defined.

(** X10. Conv2D and MaxPooling2D layers downsample: on an input that
    they accept, a Conv2D layer with a window of at least one position
    and a MaxPooling2D layer give feature maps that are no higher and no
    wider than their input, and an empty feature map along an axis on
    which the window is larger than the input; Conv2D gives as many
    channels as it has filters, MaxPooling2D keeps the channels. *)
Theorem conv_and_pooling_downsample
    (filters k s p h w c : N) (act : Activation) (out_conv out_pool : list N) :
  1 ≤ k →
  compute_output_shape (Conv2D filters k s act) [h; w; c] = Ok out_conv →
  compute_output_shape (MaxPooling2D p) [h; w; c] = Ok out_pool →
  (∃ h' w', out_conv = [h'; w'; filters] ∧ h' ≤ h ∧ w' ≤ w ∧
            (h < k → h' = 0) ∧ (w < k → w' = 0)) ∧
  (∃ h' w', out_pool = [h'; w'; c] ∧ h' ≤ h ∧ w' ≤ w ∧
            (h < p → h' = 0) ∧ (w < p → w' = 0)).
Proof.
  intros Hk Hconv Hpool. cbn [compute_output_shape] in Hconv, Hpool.
  case_bool_decide as Hp; [|discriminate].
  case_bool_decide as Hc; [|discriminate].
  injection Hconv as <-. injection Hpool as <-.
  destruct Hc as (Hs & Hh & Hw).
  assert (∀ n, (0 ≤ conv_output_size n k s)%Z →
               conv_output_length n k s ≤ n
               ∧ (n < k → conv_output_length n k s = 0)) as Hconv_le.
  { intros n Hn. unfold conv_output_length. unfold conv_output_size in *.
    pose proof (Z.mul_div_le (Z.of_N n - Z.of_N k) (Z.of_N s)) as Hlo.
    pose proof (Z.mul_succ_div_gt (Z.of_N n - Z.of_N k) (Z.of_N s)) as Hhi.
    split; [|intros Hlt]; nia. }
  assert (∀ n, pool_output_length n p ≤ n
               ∧ (n < p → pool_output_length n p = 0)) as Hpool_le.
  { intros n. unfold pool_output_length. split.
    - apply N.Div0.div_le_upper_bound. nia.
    - intros Hlt. by apply N.div_small. }
  destruct (Hconv_le h Hh) as [? ?], (Hconv_le w Hw) as [? ?].
  destruct (Hpool_le h) as [? ?], (Hpool_le w) as [? ?].
  split; eexists _, _; (split; [reflexivity|]); auto.
Qed.

Lemma conv_and_pooling_downsample_witness :
  1 ≤ 5 ∧
  compute_output_shape (Conv2D 32 5 2 relu) [250; 250; 3] = Ok [123; 123; 32] ∧
  compute_output_shape (MaxPooling2D 3) [250; 250; 3] = Ok [83; 83; 3] ∧
  ∃ h' w', [123; 123; 32] = [h'; w'; 32] ∧ h' ≤ 250 ∧ w' ≤ 250.
Proof.
  assert (1 ≤ 5) as Hk by lia.
  assert (compute_output_shape (Conv2D 32 5 2 relu) [250; 250; 3]
          = Ok [123; 123; 32]) as Hconv by (vm_compute; reflexivity).
  assert (compute_output_shape (MaxPooling2D 3) [250; 250; 3]
          = Ok [83; 83; 3]) as Hpool by (vm_compute; reflexivity).
  split; [exact Hk|]. split; [exact Hconv|]. split; [exact Hpool|].
  destruct (conv_and_pooling_downsample 32 5 2 3 250 250 3 relu _ _
              Hk Hconv Hpool) as ((h' & w' & Hout & Hh & Hw & _) & _).
  exists h', w'. by repeat split.
Defined.

(** X11. Passing an [Input] first and calling the model first build
    the same model: a model of at least one layer that is built by its
    first call on an input of shape [(batch, dims...)] has the weights of
    the model that starts with [Input(shape=dims)], which has them
    before it sees any data, and their summaries have the same rows but
    for the batch size ([None] with an [Input]). *)
Theorem input_first_builds_the_same_model
    (ls : list Layer) (nm : option string) (batch : N) (dims y : list N)
    (m' : Sequential) :
  ls ≠ [] →
  call (new (Lyr <$> ls) nm) (batch :: dims) = Ok (y, m') →
  let with_input := new (Input dims :: (Lyr <$> ls)) nm in
  built with_input = true ∧
  layers with_input = layers m' ∧
  weights with_input = weights m' ∧
  ∃ s s',
    summary m' = Ok s ∧ summary with_input = Ok s' ∧
    total_params s' = total_params s ∧
    map row_params (rows s') = map row_params (rows s) ∧
    map row_type (rows s') = map row_type (rows s) ∧
    Forall2 (λ r' r, ∃ shape, row_output_shape r = Some (Some batch, shape)
                              ∧ row_output_shape r' = Some (None, shape))
      (rows s') (rows s).
Proof.
  rewrite new_layers_only. intros _ Hcall with_input.
  assert (with_input
          = {| name := nm; layers := ls; input_shape := Some (None, dims) |})
    as ->.
  { subst with_input. unfold new. cbn [foldl add]. by rewrite foldl_add_layers. }
  unfold call in Hcall. cbn [layers input_shape name] in Hcall.
  destruct (propagate ls dims) as [[fed out]|] eqn:Hp; [|discriminate].
  injection Hcall as <- <-.
  split; [reflexivity|]. split; [reflexivity|].
  unfold weights, summary. cbn [input_shape layers]. rewrite Hp.
  split; [reflexivity|]. eexists _, _. split; [reflexivity|].
  split; [reflexivity|]. cbn [rows total_params].
  rewrite !total_is_entries. split; [reflexivity|].
  rewrite !map_map. split; [|split].
  - apply map_ext. by intros [[l d] o].
  - apply map_ext. by intros [[l d] o].
  - clear Hp. induction fed as [|[[l d] o] fed IH]; constructor; eauto.
Qed.

Lemma input_first_builds_the_same_model_witness :
  [Dense 2 relu] ≠ [] ∧
  call (new (Lyr <$> [Dense 2 relu]) None) [1; 4]
  = Ok ([1; 2],
        {| name := None; layers := [Dense 2 relu];
           input_shape := Some (Some 1, [4]) |}) ∧
  weights (new [Input [4]; Lyr (Dense 2 relu)] None)
  = weights {| name := None; layers := [Dense 2 relu];
               input_shape := Some (Some 1, [4]) |}.
Proof.
  assert ([Dense 2 relu] ≠ []) as Hne by done.
  assert (call (new (Lyr <$> [Dense 2 relu]) None) [1; 4]
          = Ok ([1; 2],
                {| name := None; layers := [Dense 2 relu];
                   input_shape := Some (Some 1, [4]) |})) as Hcall
    by (vm_compute; reflexivity).
  split; [exact Hne|]. split; [exact Hcall|].
  destruct (input_first_builds_the_same_model _ _ _ _ _ _ Hne Hcall)
    as (_ & _ & Hw & _).
  exact Hw.
Defined.

End GuideLists.

(** ** The Sequential guide: feature extraction *)

Section GuideFeatures.
Import SequentialGuide FeatureExtraction.
Local Open Scope N_scope.

Lemma propagate_take (ls : list Layer) (dims : list N) fed out (i : nat) l d o :
  propagate ls dims = Ok (fed, out) → fed !! i = Some (l, d, o) →
  propagate (take (S i) ls) dims = Ok (take (S i) fed, o).
Proof.
  revert dims fed i. induction ls as [|l0 ls IH]; intros dims fed i Hp Hi.
  - cbn in Hp. injection Hp as <- <-. discriminate.
  - cbn [propagate] in Hp.
    destruct (compute_output_shape l0 dims) as [o0|] eqn:Ho; [|discriminate].
    destruct (propagate ls o0) as [[fed' out']|] eqn:Hp'; [|discriminate].
    injection Hp as <- <-. cbn [take propagate]. rewrite Ho.
    destruct i as [|i].
    + cbn in Hi. injection Hi as <- <- <-. by rewrite take_0.
    + cbn in Hi. by rewrite (IH _ _ _ Hp' Hi).
Qed.

(** X12. The feature extractor made from a built Sequential model
    gives one feature per layer, and each of them is what the model of
    the layers up to that one gives for the same input; the last
    feature is the output of the model itself.  On a model that is not
    built, the extractor cannot be made. *)
Theorem features_are_the_outputs_of_the_layers
    (model : Sequential) (x : list N) (features : list (list N))
    (ls : list Layer) (nm : option string) :
  extract_features model x = Ok features →
  length features = length (layers model) ∧
  (∀ i feature, features !! i = Some feature →
     call (truncate (S i) model) x = Ok (feature, truncate (S i) model)) ∧
  (∀ feature, last features = Some feature →
     call model x = Ok (feature, model)) ∧
  extract_features (new (Lyr <$> ls) nm) x
  = Raise (ValueError "the model has not yet been built").
Proof.
  intros Hx. unfold extract_features in Hx.
  destruct model as [mn mls [[mb dims]|]]; cbn [input_shape layers] in Hx;
    [|discriminate].
  destruct x as [|batch dims']; [discriminate|].
  case_bool_decide as Hd; [subst dims'|discriminate].
  destruct (propagate mls dims) as [[fed out]|] eqn:Hp; [|discriminate].
  injection Hx as <-.
  assert (∀ i feature,
            map (λ '(_, _, o), batch :: o) fed !! i = Some feature →
            call (truncate (S i) {| name := mn; layers := mls;
                                    input_shape := Some (mb, dims) |})
                 (batch :: dims)
            = Ok (feature, truncate (S i) {| name := mn; layers := mls;
                                             input_shape := Some (mb, dims) |}))
    as Heach.
  { intros i feature Hi. rewrite list_lookup_fmap in Hi.
    destruct (fed !! i) as [[[l d] o]|] eqn:Hfed; [|discriminate].
    injection Hi as <-. unfold call, truncate. cbn [layers input_shape name].
    rewrite bool_decide_true by done.
    by rewrite (propagate_take _ _ _ _ _ _ _ _ Hp Hfed). }
  split; [|split; [exact Heach|split]].
  - rewrite length_map. by eapply propagate_length.
  - intros feature Hlast. rewrite last_lookup in Hlast.
    rewrite length_map, (propagate_length _ _ _ _ Hp) in Hlast.
    destruct mls as [|l0 mls'].
    { cbn in Hp. injection Hp as <- _. discriminate. }
    cbn [length pred] in Hlast.
    specialize (Heach _ _ Hlast). unfold truncate in Heach.
    cbn [layers name input_shape] in Heach.
    rewrite (take_ge (l0 :: mls')) in Heach by (cbn [length]; lia).
    exact Heach.
  - by rewrite new_layers_only.
Qed.

Lemma features_are_the_outputs_of_the_layers_witness :
  extract_features initial_model [1; 250; 250; 3]
  = Ok [[1; 123; 123; 32]; [1; 121; 121; 32]; [1; 119; 119; 32]] ∧
  call initial_model [1; 250; 250; 3]
  = Ok ([1; 119; 119; 32], initial_model).
Proof.
  assert (extract_features initial_model [1; 250; 250; 3]
          = Ok [[1; 123; 123; 32]; [1; 121; 121; 32]; [1; 119; 119; 32]])
    as Hx by (vm_compute; reflexivity).
  split; [exact Hx|].
  destruct (features_are_the_outputs_of_the_layers _ _ _ [] None Hx)
    as (_ & _ & Hlast & _).
  by apply Hlast.
Defined.

End GuideFeatures.

(** ** The Sequential guide: freezing all layers but the last *)

Section GuideFreezing.
Import SequentialGuide TransferLearning.
Local Open Scope N_scope.

(** What the loop leaves of every object of the session. *)
Lemma freeze_lookup (ids : list nat) (h : Heap) (id : nat) :
  foldl (λ h id, set_trainable false id h) h ids !! id
  = if decide (id ∈ ids) then frozen <$> h !! id else h !! id.
Proof.
  revert h. induction ids as [|id0 ids IH]; intros h.
  - cbn. by rewrite decide_False by apply not_elem_of_nil.
  - cbn [foldl]. rewrite IH. unfold set_trainable at 1 2.
    destruct (decide (id0 = id)) as [->|Hne].
    + rewrite lookup_alter_eq.
      rewrite (decide_True (P := id ∈ id :: ids)) by apply list_elem_of_here.
      destruct (decide (id ∈ ids)); by destruct (h !! id).
    + rewrite lookup_alter_ne by done.
      destruct (decide (id ∈ ids)) as [Hin|Hout].
      * by rewrite decide_True by (by apply list_elem_of_further).
      * rewrite decide_False; [done|].
        rewrite elem_of_cons. intros [->|]; done.
Qed.

Lemma all_but_last_snoc {A : Type} (l : list A) (x : A) :
  all_but_last (l ++ [x]) = l.
Proof.
  unfold all_but_last. rewrite length_app. cbn [length].
  replace (length l + 1 - 1)%nat with (length l) by lia.
  by rewrite take_app_length.
Qed.

(** X13. The loop [for layer in model.layers[:-1]: layer.trainable =
    False] freezes all layers except the last one: when no layer object
    stands twice in the model, the last layer is left as it was, every
    other layer of the model is no longer trainable, every object that
    is not a layer of the model is untouched, and no layer changes
    otherwise. *)
Theorem freezing_spares_the_last_layer
    (init : list nat) (lst : nat) (h : Heap) :
  NoDup (init ++ [lst]) →
  let h' := freeze_all_but_last (init ++ [lst]) h in
  h' !! lst = h !! lst ∧
  (∀ id o, id ∈ init → h !! id = Some o → h' !! id = Some (frozen o)) ∧
  (∀ id, id ∉ init → h' !! id = h !! id) ∧
  (∀ id, kind <$> h' !! id = kind <$> h !! id).
Proof.
  intros Hnodup h'. subst h'. unfold freeze_all_but_last.
  rewrite all_but_last_snoc.
  apply NoDup_app in Hnodup as (_ & Hdisj & _).
  assert (lst ∉ init) as Hlst.
  { intros Hin. apply (Hdisj _ Hin), list_elem_of_here. }
  split; [|split; [|split]].
  - by rewrite freeze_lookup, decide_False.
  - intros id o Hin Ho. by rewrite freeze_lookup, decide_True, Ho.
  - intros id Hout. by rewrite freeze_lookup, decide_False.
  - intros id. rewrite freeze_lookup.
    destruct (decide (id ∈ init)); by destruct (h !! id).
Qed.

Lemma freezing_spares_the_last_layer_witness :
  NoDup ([0; 1; 2] ++ [3])%nat ∧
  freeze_all_but_last blueprint_ids blueprint_heap !! 3%nat
  = Some {| kind := Dense 10 linear; trainable := true |} ∧
  freeze_all_but_last blueprint_ids blueprint_heap !! 0%nat
  = Some {| kind := Dense 32 relu; trainable := false |}.
Proof.
  assert (NoDup ([0; 1; 2] ++ [3])%nat) as Hnodup.
  { cbn [app]. repeat (apply NoDup_cons; split;
      [rewrite ?elem_of_cons, elem_of_nil; lia|]). apply NoDup_nil_2. }
  split; [exact Hnodup|].
  destruct (freezing_spares_the_last_layer [0; 1; 2]%nat 3%nat
              blueprint_heap Hnodup) as (Hlast & Hinit & _).
  split; [exact Hlast|].
  exact (Hinit 0%nat {| kind := Dense 32 relu; trainable := true |}
           (list_elem_of_here _ _) eq_refl).
Defined.

(** X14. The edges of the loop: on a model with no layer or with one
    layer it changes nothing; running it twice is running it once; and
    when the object of the last layer also stands earlier in the model
    (a shared layer), the loop freezes the last layer too. *)
Theorem freezing_edge_cases
    (ids init : list nat) (lst : nat) (h : Heap) (o : LayerObject) :
  lst ∈ init → h !! lst = Some o →
  freeze_all_but_last (init ++ [lst]) h !! lst = Some (frozen o) ∧
  freeze_all_but_last [] h = h ∧
  freeze_all_but_last [lst] h = h ∧
  freeze_all_but_last ids (freeze_all_but_last ids h)
  = freeze_all_but_last ids h.
Proof.
  intros Hin Ho. split; [|split; [reflexivity|split; [reflexivity|]]].
  - unfold freeze_all_but_last. rewrite all_but_last_snoc.
    by rewrite freeze_lookup, decide_True, Ho.
  - apply map_eq. intros id. unfold freeze_all_but_last.
    rewrite !freeze_lookup.
    destruct (decide (id ∈ all_but_last ids)); [|done].
    by destruct (h !! id).
Qed.

Lemma freezing_edge_cases_witness :
  (0 ∈ [0; 1])%nat ∧
  blueprint_heap !! 0%nat = Some {| kind := Dense 32 relu; trainable := true |} ∧
  freeze_all_but_last ([0; 1] ++ [0])%nat blueprint_heap !! 0%nat
  = Some {| kind := Dense 32 relu; trainable := false |}.
Proof.
  assert ((0 ∈ [0; 1])%nat) as Hin by apply list_elem_of_here.
  assert (blueprint_heap !! 0%nat
          = Some {| kind := Dense 32 relu; trainable := true |}) as Ho
    by reflexivity.
  split; [exact Hin|]. split; [exact Ho|].
  exact (proj1 (freezing_edge_cases [] [0; 1]%nat 0%nat blueprint_heap _ Hin Ho)).
Defined.

Lemma objects_frozen (init : list nat) (h h' : Heap) :
  (∀ id, id ∈ init → h' !! id = frozen <$> h !! id) →
  objects init h' = frozen <$> objects init h.
Proof.
  unfold objects. induction init as [|id init IH]; intros Hfr; [reflexivity|].
  cbn [omap list_omap]. rewrite (Hfr id) by apply list_elem_of_here.
  rewrite IH by (intros id' Hin; apply Hfr; by apply list_elem_of_further).
  by destruct (h !! id).
Qed.

Lemma frozen_sums (objs : list LayerObject)
    (fed : list (Layer * list N * list N)) (t f : N) :
  length objs = length fed →
  foldr (λ '(t, n) acc, if t : bool then n + acc else acc) t
    (zip_with (λ o '(l, d, _), (trainable o, count_params l d))
       (frozen <$> objs) fed) = t ∧
  foldr (λ '(t, n) acc, if t : bool then acc else n + acc) f
    (zip_with (λ o '(l, d, _), (trainable o, count_params l d))
       (frozen <$> objs) fed)
  = foldr (λ '(l, d, _) acc, count_params l d + acc) 0 fed + f.
Proof.
  revert fed. induction objs as [|o objs IH]; intros [|[[l d] out] fed] Hlen;
    try discriminate.
  - split; [reflexivity|]. cbn. lia.
  - cbn [fmap list_fmap zip_with foldr frozen trainable].
    injection Hlen as Hlen. destruct (IH fed Hlen) as (-> & ->). split; lia.
Qed.

(** X15. After the loop only the weights of the last layer are
    trainable: for a model without shared layers whose last layer is
    trainable, built for inputs of shape [dims], the number of
    trainable parameters is that of the last layer, and the parameters
    of all other layers count as non-trainable. *)
Theorem only_the_last_layer_is_trained
    (init : list nat) (lst : nat) (h : Heap) (o_last : LayerObject)
    (dims : list N) fed out l d o :
  NoDup (init ++ [lst]) →
  h !! lst = Some o_last → trainable o_last = true →
  propagate (kind <$> objects (init ++ [lst]) h) dims = Ok (fed, out) →
  last fed = Some (l, d, o) →
  l = kind o_last ∧
  params (init ++ [lst]) (freeze_all_but_last (init ++ [lst]) h) dims
  = Ok (count_params l d,
        foldr (λ '(l, d, _) acc, count_params l d + acc) 0
          (all_but_last fed)).
Proof.
  intros Hnodup Hlst Htrain Hp Hlast.
  destruct (freezing_spares_the_last_layer init lst h Hnodup)
    as (Hkeep & Hfrozen & _ & _).
  assert (objects (init ++ [lst]) h = objects init h ++ [o_last]) as Hobjs.
  { unfold objects. rewrite omap_app. cbn. by rewrite Hlst. }
  assert (objects (init ++ [lst]) (freeze_all_but_last (init ++ [lst]) h)
          = (frozen <$> objects init h) ++ [o_last]) as Hobjs'.
  { unfold objects at 1. rewrite omap_app. cbn [omap list_omap].
    rewrite Hkeep, Hlst. f_equal.
    apply objects_frozen. intros id Hin.
    destruct (h !! id) as [oi|] eqn:Hid.
    - by apply Hfrozen.
    - unfold freeze_all_but_last. rewrite all_but_last_snoc, freeze_lookup.
      by rewrite decide_True, Hid. }
  assert (kind <$> objects (init ++ [lst])
                     (freeze_all_but_last (init ++ [lst]) h)
          = kind <$> objects (init ++ [lst]) h) as Hkinds.
  { rewrite Hobjs, Hobjs', !fmap_app. f_equal.
    rewrite <- list_fmap_compose. by apply list_fmap_ext. }
  pose proof (propagate_length _ _ _ _ Hp) as Hlen.
  rewrite Hobjs, length_fmap, length_app in Hlen. cbn [length] in Hlen.
  apply last_Some in Hlast as [fed0 ->].
  rewrite length_app in Hlen. cbn [length] in Hlen.
  assert (length (objects init h) = length fed0) as Hlen0 by lia.
  split.
  - rewrite Hobjs, fmap_app in Hp. cbn [fmap list_fmap] in Hp.
    clear -Hp Hlen0. revert dims fed0 Hp Hlen0.
    generalize (objects init h) as objs.
    induction objs as [|o0 objs IH]; intros dims [|x fed0] Hp Hlen0;
      try discriminate.
    + cbn in Hp.
      destruct (compute_output_shape (kind o_last) dims); [|discriminate].
      by injection Hp as <- _ _ _.
    + cbn [fmap list_fmap app propagate] in Hp.
      destruct (compute_output_shape (kind o0) dims) as [o1|]; [|discriminate].
      destruct (propagate _ o1) as [[fed1 out1]|] eqn:Hp1; [|discriminate].
      injection Hp as _ Hfed Hout. subst fed1 out1. injection Hlen0 as Hlen0.
      by eapply IH.
  - unfold params. rewrite Hkinds, Hp, Hobjs', all_but_last_snoc.
    rewrite zip_with_app by (by rewrite length_fmap).
    rewrite !foldr_app. cbn [zip_with foldr]. rewrite Htrain.
    destruct (frozen_sums (objects init h) fed0 (count_params l d + 0) 0 Hlen0)
      as (-> & ->).
    f_equal. f_equal; lia.
Qed.

Lemma only_the_last_layer_is_trained_witness :
  blueprint_heap !! 3%nat = Some {| kind := Dense 10 linear; trainable := true |} ∧
  params blueprint_ids blueprint_heap [784] = Ok (27562, 0) ∧
  params blueprint_ids (freeze_all_but_last blueprint_ids blueprint_heap) [784]
  = Ok (330, 27232).
Proof.
  split; [reflexivity|]. split; [vm_compute; reflexivity|].
  assert (NoDup ([0; 1; 2] ++ [3])%nat) as Hnodup.
  { cbn [app]. repeat (apply NoDup_cons; split;
      [rewrite ?elem_of_cons, elem_of_nil; lia|]). apply NoDup_nil_2. }
  refine (proj2 (only_the_last_layer_is_trained [0; 1; 2]%nat 3%nat
                   blueprint_heap {| kind := Dense 10 linear; trainable := true |}
                   [784]
                   [(Dense 32 relu, [784], [32]); (Dense 32 relu, [32], [32]);
                    (Dense 32 relu, [32], [32]); (Dense 10 linear, [32], [10])]
                   [10] (Dense 10 linear) [32] [10]
                   Hnodup eq_refl eq_refl _ eq_refl)).
  vm_compute. reflexivity.
Defined.

End GuideFreezing.

(** ** Stacking layers and models on tensor values *)

Section SequentialStacking.
Import SequentialCall.
Context {R : Type} (plus times : R → R → R) (relu : R → R).

(** Calls of Sequential models compose: a model with one more
    layer gives that layer's output on what the model gave before; a
    model made of two lists of layers one after the other gives what
    the model of the second list gives on the output of the model of
    the first; and a Sequential model that stacks a base model and a
    layer, as in [keras.Sequential([base_model, layers.Dense(1000)])],
    gives the layer's output on the output of the base model. *)
Theorem sequential_calls_compose
    (model : Sequential (R := R)) (ls1 ls2 : list Layer) (l : Layer)
    (x : Tensor) :
  call (add model l) x = l (call model x) ∧
  call (new (ls1 ++ ls2)) x = call (new ls2) (call (new ls1) x) ∧
  call (new [call (new ls1); l]) x = l (call (new ls1) x) ∧
  call (new [call (new ls1); l]) x = call (add (new ls1) l) x.
Proof.
  assert (∀ m : Sequential (R := R), call (add m l) x = l (call m x)) as Hadd.
  { intros m. unfold call, add. cbn [layers]. by rewrite foldl_app. }
  split; [apply Hadd|]. split; [|split].
  - unfold call. rewrite !layers_new. by rewrite foldl_app.
  - unfold call at 1. by rewrite layers_new.
  - rewrite Hadd. unfold call at 1. by rewrite layers_new.
Qed.



End SequentialStacking.

